(** * Riya voice recruiter: dialogue state machine and turn orchestrator

    A shallow embedding of [main.py]: the answer quality gate
    [check_story_quality], the dialogue state machine [get_reply] over
    [SessionData], the speech synthesis step [generate_tts] and the per-turn
    pipeline [twilio_webhook].

    Conventions.
    - A Python [str] is a [string]; each [ascii] stands for the code point
      of the same number (U+0000 to U+00FF).  [isspace] and [lower_char] are
      Python's [str.isspace] and [str.lower] on that range.
    - [get_reply] mutates the session it is given and returns the prompt;
      here it returns the session after the call together with the prompt.
    - What the outside world answers during a turn (the transcript of the
      recording, the synthesis provider's HTTP response, the random audio
      name) is an explicit argument of the function that consumes it. *)

From Stdlib Require Import ZArith NArith Ascii.
From stdpp Require Import gmap strings list fin_maps.

Local Open Scope Z_scope.

(** ** Characters and the string primitives the program uses *)

Module Str.

Definition code (c : ascii) : N := N_of_ascii c.

(** [str.isspace] for one character. *)
Definition isspace (c : ascii) : bool :=
  let n := code c in
  ((9 <=? n) && (n <=? 13) || (28 <=? n) && (n <=? 32)
   || (n =? 133) || (n =? 160))%N.

(** The character class [[.!?]] of the regular expression. *)
Definition is_terminator (c : ascii) : bool :=
  match c with
  | "."%char | "!"%char | "?"%char => true
  | _ => false
  end.

(** [str.lower] for one character. *)
Definition lower_char (c : ascii) : ascii :=
  let n := code c in
  if ((65 <=? n) && (n <=? 90) || (192 <=? n) && (n <=? 214)
      || (216 <=? n) && (n <=? 222))%N
  then ascii_of_N (n + 32) else c.

Fixpoint lower (s : string) : string :=
  match s with
  | "" => ""
  | String c r => String (lower_char c) (lower r)
  end.

Definition is_empty (s : string) : bool :=
  match s with "" => true | _ => false end.

Fixpoint lstrip (s : string) : string :=
  match s with
  | "" => ""
  | String c r => if isspace c then lstrip r else s
  end.

Fixpoint rstrip (s : string) : string :=
  match s with
  | "" => ""
  | String c r =>
      let r' := rstrip r in
      if isspace c && is_empty r' then "" else String c r'
  end.

(** [s.strip()] *)
Definition strip (s : string) : string := rstrip (lstrip s).

(** Put a character in front of the first piece of a split. *)
Definition cons_head (c : ascii) (ps : list string) : list string :=
  match ps with
  | p :: ps' => String c p :: ps'
  | [] => [String c ""]
  end.

(** [re.split(r'[.!?]+', s)]: the pieces between maximal runs of
    terminators, empty pieces at both ends included.  [in_run] tells
    that the character before [s] was a terminator. *)
Fixpoint re_split_go (in_run : bool) (s : string) : list string :=
  match s with
  | "" => [""]
  | String c r =>
      if is_terminator c then
        if in_run then re_split_go true r else "" :: re_split_go true r
      else cons_head c (re_split_go false r)
  end.

Definition re_split (s : string) : list string := re_split_go false s.

(** [s.split()]: the maximal runs of characters that are not spaces. *)
Fixpoint split (s : string) : list string :=
  match s with
  | "" => []
  | String c r =>
      if isspace c then split r
      else match r with
           | "" => [String c ""]
           | String d _ =>
               if isspace d then String c "" :: split r
               else cons_head c (split r)
           end
  end.

(** [needle in hay] for strings. *)
Fixpoint contains (needle hay : string) : bool :=
  String.prefix needle hay
  || match hay with
     | "" => false
     | String _ r => contains needle r
     end.

(** Only spaces, or nothing at all. *)
Fixpoint all_space (s : string) : bool :=
  match s with
  | "" => true
  | String c r => isspace c && all_space r
  end.

End Str.

(** ** The answer quality gate *)

(** [sentences = [s.strip() for s in re.split(...) if s.strip()]] *)
Definition sentences (text : string) : list string :=
  Str.strip <$> filter (λ s, Str.is_empty (Str.strip s) = false) (Str.re_split text).

Definition check_story_quality (text : string) : bool :=
  (8 <=? length (sentences text))%nat || (50 <=? length (Str.split text))%nat.


(** ** Sessions *)

Inductive ConversationState : Set :=
  | GREETING
  | INTEREST_CHECK
  | EXPERIENCE_CHECK
  | FRESHER_QUALIFICATION
  | EXP_DETAILS
  | CUSTOMER_STORY
  | CUSTOMER_RETRY
  | FESTIVAL_STORY
  | FESTIVAL_RETRY
  | COMPLETED
  | REJECTED.

#[global] Instance ConversationState_eq_dec : EqDecision ConversationState.
Proof. solve_decision. Defined.

Record SessionData : Type := mkSession {
  conversation : list string;
  state : ConversationState;
  candidate_type : option string;
  retry_count : Z;
  answers : gmap string string;
  phone_number : option string;
  current_audio_url : option string
}.

(** [SessionData(phone_number)] *)
Definition new_session (phone : option string) : SessionData :=
  {| conversation := [];
     state := GREETING;
     candidate_type := None;
     retry_count := 0;
     answers := ∅;
     phone_number := phone;
     current_audio_url := None |}.

(** Field assignments [session.f = v]. *)
Definition set_state (st : ConversationState) (s : SessionData) : SessionData :=
  {| conversation := conversation s; state := st;
     candidate_type := candidate_type s; retry_count := retry_count s;
     answers := answers s; phone_number := phone_number s;
     current_audio_url := current_audio_url s |}.

Definition set_candidate_type (t : string) (s : SessionData) : SessionData :=
  {| conversation := conversation s; state := state s;
     candidate_type := Some t; retry_count := retry_count s;
     answers := answers s; phone_number := phone_number s;
     current_audio_url := current_audio_url s |}.

Definition set_retry_count (n : Z) (s : SessionData) : SessionData :=
  {| conversation := conversation s; state := state s;
     candidate_type := candidate_type s; retry_count := n;
     answers := answers s; phone_number := phone_number s;
     current_audio_url := current_audio_url s |}.

(** [session.answers[k] = v] *)
Definition set_answer (k v : string) (s : SessionData) : SessionData :=
  {| conversation := conversation s; state := state s;
     candidate_type := candidate_type s; retry_count := retry_count s;
     answers := <[k:=v]> (answers s); phone_number := phone_number s;
     current_audio_url := current_audio_url s |}.

Definition set_current_audio_url (u : option string) (s : SessionData) : SessionData :=
  {| conversation := conversation s; state := state s;
     candidate_type := candidate_type s; retry_count := retry_count s;
     answers := answers s; phone_number := phone_number s;
     current_audio_url := u |}.

(** [any(word in user_lower for word in words)] *)
Definition any_in (words : list string) (user_lower : string) : bool :=
  existsb (λ word, Str.contains word user_lower) words.

(** ** The dialogue state machine *)

Definition get_reply (session : SessionData) (user_input : string)
  : SessionData * string :=
  let user_lower := Str.strip (Str.lower user_input) in
  match state session with
  | GREETING =>
      (set_state INTEREST_CHECK session,
       "Hi, this is Riya from Futuresoft Consultancy. We are hiring voice and chat profiles for companies like British Telecom, Teleperformance, and Wipro. Are you interested?")
  | INTEREST_CHECK =>
      if any_in ["no"; "not"; "nah"; "nope"] user_lower then
        (session, "I understand. Thank you for your time. Have a great day!")
      else if any_in ["yes"; "yeah"; "sure"; "interested"; "ok"] user_lower then
        (set_state EXPERIENCE_CHECK session,
         "We will surely help you with the same. Could you please confirm me if you are Fresher OR Experienced?")
      else
        (session, "Could you please confirm if you are interested? Just say Yes or No.")
  | EXPERIENCE_CHECK =>
      if any_in ["fresher"; "fresh"; "student"] user_lower then
        (set_state FRESHER_QUALIFICATION (set_candidate_type "fresher" session),
         "Now, what's your highest qualification like Graduate, Undergraduate, or Graduation drop-out?")
      else if any_in ["experience"; "experienced"; "worked"] user_lower then
        (set_state EXP_DETAILS (set_candidate_type "experienced" session),
         "Now, please confirm your highest qualification and experience. Mention your job responsibility part clearly.")
      else
        (session, "Could you please clarify - are you a Fresher or Experienced?")
  | FRESHER_QUALIFICATION =>
      (set_state CUSTOMER_STORY (set_answer "qualification" user_input session),
       "That was very impressive. Could you please speak about any memorable interaction with customer within 10 to 12 sentences. You can start with, 'Once a customer called me for issue related to...' And your time starts now.")
  | EXP_DETAILS =>
      (set_state CUSTOMER_STORY (set_answer "experience" user_input session),
       "That was very impressive. Could you please speak about any memorable interaction with customer within 10 to 12 sentences. You can start with, 'Once a customer called me for issue related to...' And your time starts now.")
  | CUSTOMER_STORY =>
      let is_valid := check_story_quality user_input in
      if is_valid then
        (set_state FESTIVAL_STORY (set_answer "customer_story" user_input session),
         "Acknowledgment to statement. Could you please speak about any latest festival you celebrated like Diwali, Holi, Christmas or Eid in 10 to 12 sentences. Start with, 'I celebrated my last Diwali along with family...' And your time starts now.")
      else
        let session := set_retry_count (retry_count session + 1) session in
        if 2 <=? retry_count session then
          (set_state REJECTED session,
           "Sorry, we will not be able to help you with job as we hire candidates with good communication skills only.")
        else
          (set_state CUSTOMER_RETRY session,
           "Sorry, you need to speak only 10 to 12 sentences on this topic. It can be done within 15 seconds only. Please speak on this topic now.")
  | CUSTOMER_RETRY =>
      let is_valid := check_story_quality user_input in
      if is_valid then
        (set_state FESTIVAL_STORY (set_answer "customer_story" user_input session),
         "Acknowledgment to statement. Could you please speak about any latest festival you celebrated like Diwali, Holi, Christmas or Eid in 10 to 12 sentences. Start with, 'I celebrated my last Diwali along with family...' And your time starts now.")
      else
        (set_state REJECTED session,
         "Sorry, we will not be able to help you with job as we hire candidates with good communication skills only.")
  | FESTIVAL_STORY =>
      let is_valid := check_story_quality user_input in
      if is_valid then
        (set_state COMPLETED (set_answer "festival" user_input session),
         "That was amazing, now one of our HR Recruiter will connect you for your further interview process.")
      else
        let session := set_retry_count (retry_count session + 1) session in
        if 2 <=? retry_count session then
          (set_state REJECTED session,
           "Sorry, we will not be able to help you with job as we hire candidates with good communication skills only.")
        else
          (set_state FESTIVAL_RETRY session,
           "Sorry, please speak clearly about the festival celebration for 10 to 12 sentences to proceed.")
  | FESTIVAL_RETRY =>
      let is_valid := check_story_quality user_input in
      if is_valid then
        (set_state COMPLETED (set_answer "festival" user_input session),
         "That was amazing, now one of our HR Recruiter will connect you for your further interview process.")
      else
        (set_state REJECTED session,
         "Sorry, we will not be able to help you with job as we hire candidates with good communication skills only.")
  | REJECTED | COMPLETED =>
      (session, "Thank you for your time. Have a great day!")
  end.

(** The lines the properties below speak about. *)
Definition decline_line : string :=
  "I understand. Thank you for your time. Have a great day!".
Definition festival_prompt : string :=
  "Acknowledgment to statement. Could you please speak about any latest festival you celebrated like Diwali, Holi, Christmas or Eid in 10 to 12 sentences. Start with, 'I celebrated my last Diwali along with family...' And your time starts now.".
Definition completed_line : string :=
  "That was amazing, now one of our HR Recruiter will connect you for your further interview process.".
Definition rejection_line : string :=
  "Sorry, we will not be able to help you with job as we hire candidates with good communication skills only.".
Definition customer_retry_prompt : string :=
  "Sorry, you need to speak only 10 to 12 sentences on this topic. It can be done within 15 seconds only. Please speak on this topic now.".
Definition festival_retry_prompt : string :=
  "Sorry, please speak clearly about the festival celebration for 10 to 12 sentences to proceed.".
Definition closing_line : string :=
  "Thank you for your time. Have a great day!".
Definition empty_retry_prompt : string :=
  "Sorry, you need to speak on this topic. Please try now.".
Definition didnt_catch_prompt : string :=
  "I didn't catch that. Could you please speak up?".

(** [state in [REJECTED, COMPLETED]] *)
Definition is_terminal (st : ConversationState) : bool :=
  match st with
  | REJECTED | COMPLETED => true
  | _ => false
  end.

(** ** Speech synthesis and the turn orchestrator *)

(** What [requests.post] and the copy of the body to the audio file did:
    an exception somewhere in the [try] block, or a response with its
    status code, [saved] telling that the body was written without error. *)
Inductive post_outcome : Type :=
  | PostRaised
  | PostResponse (status_code : Z) (saved : bool).

Record synthesis_io : Type := mkSynthesisIo {
  uuid_hex8 : string;          (* [uuid.uuid4().hex[:8]] *)
  post : post_outcome
}.

(** What the download and transcription of a recording did. *)
Inductive transcript_outcome : Type :=
  | TranscriptRaised                       (* the [except] branch *)
  | TranscriptError                        (* [transcript.status == "error"] *)
  | TranscriptText (text : option string). (* [transcript.text], maybe [None] *)

(** The verbs of the TwiML document, in the order they were appended. *)
Inductive verb : Type :=
  | VSay (text : string) (voice language : option string)
  | VPlay (url : string)
  | VRecord (action : string) (max_length : Z) (play_beep : bool)
            (trim : string) (timeout : Z)
  | VHangup.

(** Truth value of an optional string: [None] and the empty string are false. *)
Definition truthy (o : option string) : bool :=
  match o with
  | Some s => negb (Str.is_empty s)
  | None => false
  end.

Section Orchestrator.

Variable PUBLIC_URL : string.

Definition generate_tts (io : synthesis_io) (text session_id : string)
  : option string :=
  let audio_id := session_id +:+ "_" +:+ uuid_hex8 io +:+ ".wav" in
  match post io with
  | PostResponse status_code saved =>
      if status_code =? 200 then
        if saved then Some (PUBLIC_URL +:+ "/audio/" +:+ audio_id) else None
      else None
  | PostRaised => None
  end.

(** The transcript a turn works with ([user_input] after the
    "Process recording if present" block). *)
Definition turn_input (RecordingUrl : option string) (t : transcript_outcome)
  : option string :=
  if truthy RecordingUrl then
    match t with
    | TranscriptRaised => Some ""
    | TranscriptError => Some ""
    | TranscriptText text => text
    end
  else Some "".

(** [not user_input or not user_input.strip()] *)
Definition is_blank (user_input : option string) : bool :=
  match user_input with
  | None => true
  | Some text => Str.is_empty text || Str.is_empty (Str.strip text)
  end.

(** The "Get reply from conversation flow" block of [twilio_webhook]. *)
Definition flow_reply (session : SessionData) (user_input : option string)
  : SessionData * string :=
  if is_blank user_input then
    match state session with
    | CUSTOMER_STORY | FESTIVAL_STORY =>
        let session := set_retry_count (retry_count session + 1) session in
        if 2 <=? retry_count session then
          (set_state REJECTED session,
           "Sorry, we will not be able to help you with job as we hire candidates with good communication skills only.")
        else
          (if decide (state session = CUSTOMER_STORY)
           then set_state CUSTOMER_RETRY session
           else set_state FESTIVAL_RETRY session,
           "Sorry, you need to speak on this topic. Please try now.")
    | _ => (session, "I didn't catch that. Could you please speak up?")
    end
  else get_reply session (default "" user_input).

(** The "Generate TTS with fallback" block. *)
Definition synthesize (io : synthesis_io) (session : SessionData)
    (reply session_id : string) : SessionData * option string :=
  if Str.is_empty reply then (session, None)
  else
    let audio_url := generate_tts io reply session_id in
    (set_current_audio_url audio_url session, audio_url).

(** The "Continue or hang up" block. *)
Definition continuation (session : SessionData) (session_id : string) : verb :=
  if negb (is_terminal (state session)) then
    VRecord (PUBLIC_URL +:+ "/twilio-webhook?session_id=" +:+ session_id)
            60 true "trim-silence" 5
  else VHangup.

(** One webhook request.  The registry [sessions] is the module-level
    dictionary; the session object found in it is updated in place, so
    the registry after the request holds the updated session. *)
Definition twilio_webhook (sessions : gmap string SessionData)
    (session_id RecordingUrl : option string)
    (t : transcript_outcome) (io : synthesis_io)
  : gmap string SessionData * list verb :=
  let expired :=
    (sessions, [VSay "Sorry, this session has expired. Please call again." None None]) in
  match session_id with
  | None => expired
  | Some sid =>
      if Str.is_empty sid then expired
      else
        match sessions !! sid with
        | None => expired
        | Some session =>
            let user_input := turn_input RecordingUrl t in
            let '(session, reply) := flow_reply session user_input in
            let '(session, audio_url) := synthesize io session reply sid in
            let speak :=
              match audio_url with
              | Some url =>
                  if Str.is_empty url
                  then VSay reply (Some "Polly.Joanna") (Some "en-US")
                  else VPlay url
              | None => VSay reply (Some "Polly.Joanna") (Some "en-US")
              end in
            (<[sid:=session]> sessions, [speak; continuation session sid])
        end
  end.

End Orchestrator.

(** ** The quality gate as the specification words it *)

Module GateSpec.

(** Split at every single terminator character. *)
Fixpoint split_each (s : string) : list string :=
  match s with
  | "" => [""]
  | String c r =>
      if Str.is_terminator c then "" :: split_each r
      else Str.cons_head c (split_each r)
  end.

(** A fragment survives when trimming leaves something. *)
Definition kept (s : string) : Prop := Str.is_empty (Str.strip s) = false.

#[global] Instance kept_dec s : Decision (kept s).
Proof. unfold kept. apply _. Defined.

Definition sentence_count (text : string) : nat :=
  length (filter kept (split_each text)).

(** Words counted at their first character: a character that is not a
    space and follows a space or the start of the text. *)
Fixpoint word_starts (after_space : bool) (s : string) : nat :=
  match s with
  | "" => 0
  | String c r =>
      if Str.isspace c then word_starts true r
      else ((if after_space then 1 else 0) + word_starts false r)%nat
  end.

Definition word_count (text : string) : nat := word_starts true text.

Definition isSufficient (text : string) : bool :=
  (8 <=? sentence_count text)%nat || (50 <=? word_count text)%nat.

End GateSpec.

(** Sample transcripts at the thresholds. *)
Definition eight_sentences : string :=
  "One. Two. Three. Four. Five. Six. Seven. Eight".
Definition seven_sentences : string :=
  "One. Two. Three. Four. Five. Six. Seven.".
Definition fifty_words : string :=
  "w w w w w w w w w w w w w w w w w w w w w w w w w w w w w w w w w w w w w w w w w w w w w w w w w w".
Definition seven_sentences_49_words : string :=
  "w w w w w w w. w w w w w w w! w w w w w w w? w w w w w w w. w w w w w w w. w w w w w w w. w w w w w w w".

(** ** Vocabulary of the properties *)

(** The four states that ask a narrative question. *)
Definition is_narrative (st : ConversationState) : bool :=
  match st with
  | CUSTOMER_STORY | CUSTOMER_RETRY | FESTIVAL_STORY | FESTIVAL_RETRY => true
  | _ => false
  end.

(** The first attempt at a narrative question. *)
Definition is_first_attempt (st : ConversationState) : bool :=
  match st with
  | CUSTOMER_STORY | FESTIVAL_STORY => true
  | _ => false
  end.

(** Where an accepted answer leads, under which key it is stored and what
    is said next. *)
Definition next_stage (st : ConversationState) : ConversationState :=
  match st with
  | CUSTOMER_STORY | CUSTOMER_RETRY => FESTIVAL_STORY
  | _ => COMPLETED
  end.

Definition answer_key (st : ConversationState) : string :=
  match st with
  | CUSTOMER_STORY | CUSTOMER_RETRY => "customer_story"
  | _ => "festival"
  end.

Definition pass_prompt (st : ConversationState) : string :=
  match st with
  | CUSTOMER_STORY | CUSTOMER_RETRY => festival_prompt
  | _ => completed_line
  end.

(** The retry state of a first attempt and its corrective prompt. *)
Definition retry_state (st : ConversationState) : ConversationState :=
  match st with
  | CUSTOMER_STORY => CUSTOMER_RETRY
  | _ => FESTIVAL_RETRY
  end.

Definition retry_prompt (st : ConversationState) : string :=
  match st with
  | CUSTOMER_STORY => customer_retry_prompt
  | _ => festival_retry_prompt
  end.

(** The place of a state in the progression GREETING, INTEREST_CHECK,
    EXPERIENCE_CHECK, qualification, customer story, festival story, end.
    A retry state is at the place of its question. *)
Definition stage (st : ConversationState) : nat :=
  match st with
  | GREETING => 0
  | INTEREST_CHECK => 1
  | EXPERIENCE_CHECK => 2
  | FRESHER_QUALIFICATION | EXP_DETAILS => 3
  | CUSTOMER_STORY | CUSTOMER_RETRY => 4
  | FESTIVAL_STORY | FESTIVAL_RETRY => 5
  | COMPLETED | REJECTED => 6
  end.

(** The same order with each retry state after its question. *)
Definition position (st : ConversationState) : nat :=
  match st with
  | GREETING => 0
  | INTEREST_CHECK => 1
  | EXPERIENCE_CHECK => 2
  | FRESHER_QUALIFICATION | EXP_DETAILS => 3
  | CUSTOMER_STORY => 4
  | CUSTOMER_RETRY => 5
  | FESTIVAL_STORY => 6
  | FESTIVAL_RETRY => 7
  | COMPLETED | REJECTED => 8
  end.

(** The edges between a narrative question and its retry state. *)
Definition retry_edges : list (ConversationState * ConversationState) :=
  [ (CUSTOMER_STORY, CUSTOMER_RETRY); (CUSTOMER_RETRY, CUSTOMER_STORY);
    (FESTIVAL_STORY, FESTIVAL_RETRY); (FESTIVAL_RETRY, FESTIVAL_STORY) ].

(** The session after a run of calls of [get_reply], one per input, and
    the prompts it returned. *)
Fixpoint run (session : SessionData) (inputs : list string)
  : SessionData * list string :=
  match inputs with
  | [] => (session, [])
  | user_input :: rest =>
      let '(session', reply) := get_reply session user_input in
      let '(final, replies) := run session' rest in
      (final, reply :: replies)
  end.

(** The states a run goes through, the starting state first. *)
Fixpoint trace (session : SessionData) (inputs : list string)
  : list ConversationState :=
  match inputs with
  | [] => [state session]
  | user_input :: rest =>
      state session :: trace (get_reply session user_input).1 rest
  end.

(** How often a trace steps from [a] to [b]. *)
Fixpoint count_edge (a b : ConversationState) (l : list ConversationState) : nat :=
  match l with
  | x :: tl =>
      match tl with
      | y :: _ =>
          ((if decide (x = a ∧ y = b) then 1 else 0) + count_edge a b tl)%nat
      | [] => 0%nat
      end
  | [] => 0%nat
  end.

(** Speech synthesis did not deliver an audio file: the request raised
    (network error, timeout), the status was not 200, or the body could
    not be saved. *)
Definition synthesis_failed (io : synthesis_io) : Prop :=
  match post io with
  | PostRaised => True
  | PostResponse status_code saved => status_code ≠ 200 ∨ saved = false
  end.

(** The address [initiate_call] gives the telephony provider for the
    webhook of a session. *)
Definition webhook_url (PUBLIC_URL session_id : string) : string :=
  PUBLIC_URL +:+ "/twilio-webhook?session_id=" +:+ session_id.

(** A transcript that is missing, empty or made of whitespace only. *)
Definition blank_transcript (user_input : option string) : Prop :=
  match user_input with
  | None => True
  | Some text => Str.all_space text = true
  end.

(** A call from its creation up to the corrective prompt of the customer
    question: interested, fresher, a qualification, a short story. *)
Definition in_customer_retry : SessionData :=
  (run (new_session (Some "+910000000000"))
       [""; "yes"; "I am a fresher"; "Graduate"; "It was fine."]).1.

(** The same call once the second, long enough, story is accepted. *)
Definition after_customer_retry : SessionData :=
  (get_reply in_customer_retry eight_sentences).1.

(** A registry holding one call, and a synthesis provider that is down. *)
Definition sample_sid : string := "3f2b8c1e-7a4d-4e0b-9c55-1d2e3f4a5b6c".

Definition sample_sessions (session : SessionData) : gmap string SessionData :=
  {[ sample_sid := session ]}.

Definition provider_down : synthesis_io :=
  {| uuid_hex8 := "0a1b2c3d"; post := PostResponse 503 false |}.

Definition provider_up : synthesis_io :=
  {| uuid_hex8 := "0a1b2c3d"; post := PostResponse 200 true |}.

(** The inputs of a whole call: the opening turn, interest, experience,
    qualification, a short and a long customer story, a long festival
    story, and a word after the end. *)
Definition whole_call : list string :=
  [""; "Yes, sure"; "I have worked before"; "Graduate, two years in support";
   "It was fine."; eight_sentences; fifty_words; "Bye"].

(** ** Call initiation, status callback and the life of the registry *)

(** What [twilio_client.calls.create] did. *)
Inductive call_outcome : Type :=
  | CallCreated (call_sid : string)
  | CallRaised (error : string).          (* [str(e)] of the exception *)

(** What [initiate_call] answers: the [HTTPException], or one of its two
    dictionaries. *)
Inductive initiate_response : Type :=
  | HTTPError (status_code : Z) (detail : string)
  | InitiateOk (call_sid session_id message : string)
  | InitiateFailed (error : string).

Section Endpoints.

Variable PUBLIC_URL : string.

(** [initiate_call]: [twilio_configured] tells that [twilio_client] is
    set, [session_id] is the fresh [str(uuid.uuid4())].  The session is
    stored first and updated in place afterwards, so the registry ends up
    with the updated session. *)
Definition initiate_call (twilio_configured : bool)
    (sessions : gmap string SessionData) (phone_number session_id : string)
    (io : synthesis_io) (call : call_outcome)
  : gmap string SessionData * initiate_response :=
  if negb twilio_configured then
    (sessions, HTTPError 500 "Twilio not configured")
  else
    let session := new_session (Some phone_number) in
    let '(session, opening_text) := get_reply session "" in
    let audio_url := generate_tts PUBLIC_URL io opening_text session_id in
    let session := set_current_audio_url audio_url session in
    let sessions := <[session_id:=session]> sessions in
    match call with
    | CallCreated call_sid =>
        (sessions,
         InitiateOk call_sid session_id ("Calling " +:+ phone_number +:+ "..."))
    | CallRaised error => (sessions, InitiateFailed error)
    end.

(** [call_status]: the clean-up branch is [pass]; the answer is
    [{"status": "ok"}] whatever the arguments. *)
Definition call_status (sessions : gmap string SessionData)
    (session_id CallStatus : option string)
  : gmap string SessionData * string :=
  (sessions, "ok").

(** The requests that touch the registry, with what the outside world
    answered while each was served. *)
Inductive request : Type :=
  | InitiateCall (twilio_configured : bool) (phone_number session_id : string)
                 (io : synthesis_io) (call : call_outcome)
  | TwilioWebhook (session_id RecordingUrl : option string)
                  (t : transcript_outcome) (io : synthesis_io)
  | CallStatus (session_id status : option string).

(** The registry after one request. *)
Definition serve (sessions : gmap string SessionData) (req : request)
  : gmap string SessionData :=
  match req with
  | InitiateCall twilio_configured phone_number session_id io call =>
      (initiate_call twilio_configured sessions phone_number session_id io call).1
  | TwilioWebhook session_id RecordingUrl t io =>
      (twilio_webhook PUBLIC_URL sessions session_id RecordingUrl t io).1
  | CallStatus session_id status =>
      (call_status sessions session_id status).1
  end.

(** The registry of a process that has served [reqs] since it started
    ([sessions = {}]). *)
Definition serve_all (reqs : list request) : gmap string SessionData :=
  foldl serve ∅ reqs.

End Endpoints.

(** ** What a session looks like at each point of the interview *)

(** The answers of the qualification turn, given the candidate type. *)
Definition profile_of (ct : option string) (m : gmap string string) : Prop :=
  ∃ q : string,
    (ct = Some "fresher" ∧ m = {[ "qualification" := q ]})
    ∨ (ct = Some "experienced" ∧ m = {[ "experience" := q ]}).

(** The profile and an accepted customer story. *)
Definition with_customer_story (ct : option string) (m : gmap string string) : Prop :=
  ∃ (p : gmap string string) (v : string),
    profile_of ct p ∧ check_story_quality v = true
    ∧ m = <["customer_story":=v]> p.

(** The profile and both accepted stories. *)
Definition with_both_stories (ct : option string) (m : gmap string string) : Prop :=
  ∃ (p : gmap string string) (v w : string),
    profile_of ct p ∧ check_story_quality v = true
    ∧ check_story_quality w = true
    ∧ m = <["festival":=w]> (<["customer_story":=v]> p).

Definition consistent (s : SessionData) : Prop :=
  match state s with
  | GREETING | INTEREST_CHECK | EXPERIENCE_CHECK =>
      candidate_type s = None ∧ answers s = ∅ ∧ retry_count s = 0
  | FRESHER_QUALIFICATION =>
      candidate_type s = Some "fresher" ∧ answers s = ∅ ∧ retry_count s = 0
  | EXP_DETAILS =>
      candidate_type s = Some "experienced" ∧ answers s = ∅ ∧ retry_count s = 0
  | CUSTOMER_STORY =>
      profile_of (candidate_type s) (answers s) ∧ retry_count s = 0
  | CUSTOMER_RETRY =>
      profile_of (candidate_type s) (answers s) ∧ retry_count s = 1
  | FESTIVAL_STORY =>
      with_customer_story (candidate_type s) (answers s)
      ∧ (retry_count s = 0 ∨ retry_count s = 1)
  | FESTIVAL_RETRY =>
      with_customer_story (candidate_type s) (answers s) ∧ retry_count s = 1
  | COMPLETED =>
      with_both_stories (candidate_type s) (answers s)
      ∧ (retry_count s = 0 ∨ retry_count s = 1)
  | REJECTED =>
      (profile_of (candidate_type s) (answers s) ∧ retry_count s = 1)
      ∨ (with_customer_story (candidate_type s) (answers s)
         ∧ (retry_count s = 1 ∨ retry_count s = 2))
  end.

(** ** A sample call, request by request *)

Definition sample_url : string := "https://riya.example".

(** A webhook request of the sample call whose recording was transcribed
    as [text]. *)
Definition heard (text : string) : request :=
  TwilioWebhook (Some sample_sid) (Some "https://api.twilio.example/rec/1")
    (TranscriptText (Some text)) provider_up.

(** Initiation, the first webhook request (no recording yet), interest,
    experience and qualification: the call is at the customer story. *)
Definition requests_to_story : list request :=
  [ InitiateCall true "+910000000000" sample_sid provider_up (CallCreated "CA01");
    TwilioWebhook (Some sample_sid) None TranscriptRaised provider_up;
    heard "Yes, sure"; heard "I am a fresher"; heard "Graduate" ].

Definition story_session : SessionData :=
  default (new_session None) (serve_all sample_url requests_to_story !! sample_sid).

(** The same call with a short and a long customer story and a long
    festival story. *)
Definition requests_to_completed : list request :=
  requests_to_story
  ++ [ heard "It was fine."; heard eight_sentences; heard fifty_words ].

Definition completed_session : SessionData :=
  default (new_session None)
    (serve_all sample_url requests_to_completed !! sample_sid).

(** The shortest kind of text that passes the gate: eight one-letter
    sentences. *)
Definition fifteen_characters : string := "a.b.c.d.e.f.g.h".

(** * Properties *)

(** ** Quality gate *)

Section Gate.
Import GateSpec.

Lemma filter_kept_empty (l : list string) :
  filter kept ("" :: l) = filter kept l.
Proof. reflexivity. Qed.

Lemma filter_kept_same_head (p : string) (ps qs : list string) :
  filter kept ps = filter kept qs →
  filter kept (p :: ps) = filter kept (p :: qs).
Proof. intros E. rewrite !filter_cons, E. reflexivity. Qed.

(** Splitting on runs and splitting at every terminator differ by empty
    pieces only: same first piece, same surviving pieces after it. *)
Lemma re_split_go_split_each (s : string) :
  (∃ p ps qs, Str.re_split_go false s = p :: ps
              ∧ split_each s = p :: qs
              ∧ filter kept ps = filter kept qs)
  ∧ filter kept (Str.re_split_go true s) = filter kept (split_each s).
Proof.
  induction s as [|c r [(p & ps & qs & Hgo & Hea & Hf) Hrun]]; simpl.
  - split; [by exists "", [], [] | done].
  - destruct (Str.is_terminator c).
    + split.
      * exists "", (Str.re_split_go true r), (split_each r). by rewrite Hrun.
      * by rewrite filter_kept_empty.
    + rewrite Hgo, Hea; simpl. split.
      * by exists (String c p), ps, qs.
      * by apply filter_kept_same_head.
Qed.

Lemma sentences_length (text : string) :
  length (sentences text) = sentence_count text.
Proof.
  unfold sentences, sentence_count, Str.re_split.
  rewrite length_fmap.
  destruct (re_split_go_split_each text) as [(p & ps & qs & -> & -> & Hf) _].
  exact (f_equal length (filter_kept_same_head p ps qs Hf)).
Qed.

Lemma split_cons_space (c : ascii) (r : string) :
  Str.isspace c = true → Str.split (String c r) = Str.split r.
Proof. intros H. simpl. by rewrite H. Qed.

Lemma cons_head_length (c : ascii) (l : list string) :
  l ≠ [] → length (Str.cons_head c l) = length l.
Proof. by destruct l. Qed.

Lemma split_length_word_starts (s : string) :
  length (Str.split s) = word_starts true s
  ∧ ∀ c, Str.isspace c = false →
         length (Str.split (String c s)) = S (word_starts false s).
Proof.
  induction s as [|d r [IH1 IH2]].
  - split; [done|]. intros c Hc. simpl. by rewrite Hc.
  - split.
    + destruct (Str.isspace d) eqn:Hd.
      * rewrite split_cons_space by done. simpl. by rewrite Hd.
      * rewrite (IH2 d Hd). simpl. by rewrite Hd.
    + intros c Hc.
      change (Str.split (String c (String d r)))
        with (if Str.isspace c then Str.split (String d r)
              else if Str.isspace d then String c "" :: Str.split (String d r)
                   else Str.cons_head c (Str.split (String d r))).
      rewrite Hc. destruct (Str.isspace d) eqn:Hd.
      * rewrite split_cons_space by done. simpl. rewrite Hd. by rewrite IH1.
      * rewrite cons_head_length.
        -- rewrite (IH2 d Hd). simpl. by rewrite Hd.
        -- intros E. specialize (IH2 d Hd). rewrite E in IH2. done.
Qed.

Lemma split_length (text : string) :
  length (Str.split text) = word_count text.
Proof. apply split_length_word_starts. Qed.

Lemma check_story_quality_isSufficient (text : string) :
  check_story_quality text = isSufficient text.
Proof.
  unfold check_story_quality, isSufficient.
  by rewrite sentences_length, split_length.
Qed.

End Gate.

(** ** The string primitives meet their informal reading *)

Section Strings.

Lemma app_cons (c : ascii) (s t : string) :
  String c s +:+ t = String c (s +:+ t).
Proof. reflexivity. Qed.

Lemma prefix_empty (s : string) : String.prefix "" s = true.
Proof. by destruct s. Qed.

Lemma prefix_app (p s : string) :
  String.prefix p s = true ↔ ∃ post, s = p +:+ post.
Proof.
  revert s. induction p as [|a p IH]; intros s.
  - rewrite prefix_empty. split; [intros _; exists s; reflexivity | done].
  - destruct s as [|b s]; simpl.
    + split; [done | intros [post E]; rewrite app_cons in E; done].
    + destruct (ascii_dec a b) as [->|Hne].
      * rewrite IH. split; intros [post E]; exists post.
        -- by rewrite app_cons, E.
        -- rewrite app_cons in E. by simplify_eq.
      * split; [done|]. intros [post E]. rewrite app_cons in E. by simplify_eq.
Qed.

Lemma contains_nil (needle : string) :
  Str.contains needle "" = String.prefix needle "" || false.
Proof. reflexivity. Qed.

Lemma contains_cons (needle : string) (c : ascii) (r : string) :
  Str.contains needle (String c r)
  = String.prefix needle (String c r) || Str.contains needle r.
Proof. reflexivity. Qed.

(** [Str.contains] is substring containment. *)
Lemma contains_app (needle hay : string) :
  Str.contains needle hay = true ↔ ∃ pre post, hay = pre +:+ needle +:+ post.
Proof.
  induction hay as [|c r IH].
  - rewrite contains_nil, orb_true_iff, prefix_app. split.
    + intros [[post E]|?]; [|done]. exists "", post. exact E.
    + intros ([|? ?] & post & E); [left; exists post; exact E | done].
  - rewrite contains_cons, orb_true_iff, prefix_app, IH. split.
    + intros [[post E]|(pre & post & E)].
      * exists "", post. exact E.
      * exists (String c pre), post. by rewrite app_cons, E.
    + intros ([|a pre] & post & E).
      * left. exists post. exact E.
      * right. rewrite app_cons in E. simplify_eq. by exists pre, post.
Qed.

Lemma rstrip_nonspace_head (c : ascii) (r : string) :
  Str.isspace c = false → Str.is_empty (Str.rstrip (String c r)) = false.
Proof. intros H. simpl. by rewrite H. Qed.

(** Trimming leaves nothing exactly for the empty and the
    whitespace-only strings. *)
Lemma strip_empty_all_space (s : string) :
  Str.is_empty (Str.strip s) = Str.all_space s.
Proof.
  unfold Str.strip. induction s as [|c r IH]; [done|].
  cbn [Str.lstrip Str.all_space]. destruct (Str.isspace c) eqn:Hc; [done|].
  by apply rstrip_nonspace_head.
Qed.

End Strings.

(** C2. The quality gate accepts a text exactly when it has at least 8
    sentences or at least 50 words, where the sentences are the fragments
    between the terminators [.], [!], [?] that are not empty after
    trimming, and the words are the whitespace-delimited ones.  So a text
    with exactly 8 sentences passes, one with exactly 50 words passes, and
    one with 7 sentences and 49 words fails. *)
Theorem check_story_quality_thresholds (text : string) :
  (check_story_quality text = true
   ↔ (8 ≤ GateSpec.sentence_count text ∨ 50 ≤ GateSpec.word_count text)%nat)
  ∧ (GateSpec.sentence_count text = 8%nat → check_story_quality text = true)
  ∧ (GateSpec.word_count text = 50%nat → check_story_quality text = true)
  ∧ (GateSpec.sentence_count text = 7%nat → GateSpec.word_count text = 49%nat →
     check_story_quality text = false).
Proof.
  rewrite check_story_quality_isSufficient. unfold GateSpec.isSufficient.
  split; [|split; [|split]].
  - rewrite orb_true_iff, !Nat.leb_le. reflexivity.
  - intros ->. reflexivity.
  - intros ->. apply orb_true_r.
  - intros -> ->. reflexivity.
Qed.

Lemma check_story_quality_thresholds_witness :
  (GateSpec.sentence_count eight_sentences = 8%nat
   ∧ check_story_quality eight_sentences = true)
  ∧ (GateSpec.word_count fifty_words = 50%nat
     ∧ check_story_quality fifty_words = true)
  ∧ (GateSpec.sentence_count seven_sentences_49_words = 7%nat
     ∧ GateSpec.word_count seven_sentences_49_words = 49%nat
     ∧ check_story_quality seven_sentences_49_words = false).
Proof.
  split; [|split].
  - split; [vm_compute; reflexivity|].
    apply (proj1 (proj2 (check_story_quality_thresholds eight_sentences))).
    vm_compute; reflexivity.
  - split; [vm_compute; reflexivity|].
    apply (proj1 (proj2 (proj2 (check_story_quality_thresholds fifty_words)))).
    vm_compute; reflexivity.
  - split; [vm_compute; reflexivity|]. split; [vm_compute; reflexivity|].
    apply (proj2 (proj2 (proj2
             (check_story_quality_thresholds seven_sentences_49_words))));
      vm_compute; reflexivity.
Defined.

(** The gate on the sample transcripts, by evaluation of the code. *)
Example gate_eight_sentences :
  length (sentences eight_sentences) = 8%nat
  ∧ length (Str.split eight_sentences) = 8%nat
  ∧ check_story_quality eight_sentences = true.
Proof. vm_compute. done. Qed.

Example gate_seven_sentences :
  length (sentences seven_sentences) = 7%nat
  ∧ check_story_quality seven_sentences = false.
Proof. vm_compute. done. Qed.

Example gate_fifty_words :
  length (sentences fifty_words) = 1%nat
  ∧ length (Str.split fifty_words) = 50%nat
  ∧ check_story_quality fifty_words = true.
Proof. vm_compute. done. Qed.

Example gate_seven_sentences_49_words :
  length (sentences seven_sentences_49_words) = 7%nat
  ∧ length (Str.split seven_sentences_49_words) = 49%nat
  ∧ check_story_quality seven_sentences_49_words = false.
Proof. vm_compute. done. Qed.

(** ** The dialogue state machine *)

Section StateMachine.

Ltac by_cases_of_get_reply :=
  unfold get_reply; cbv zeta;
  repeat match goal with
         | |- context [if ?b then _ else _] => destruct b
         end.

Lemma get_reply_nonempty (session : SessionData) (user_input : string) :
  (get_reply session user_input).2 ≠ "".
Proof. destruct (state session) eqn:E; by_cases_of_get_reply; rewrite ?E; done. Qed.

(** A step of [get_reply] keeps the position or moves to a later one. *)
Lemma get_reply_position (session : SessionData) (user_input : string) :
  let st' := state (get_reply session user_input).1 in
  st' = state session ∨ (position (state session) < position st')%nat.
Proof.
  destruct (state session) eqn:E; by_cases_of_get_reply;
    rewrite ?E; simpl; rewrite ?E; simpl; (by left) || (right; lia).
Qed.

Lemma trace_head (session : SessionData) (inputs : list string) :
  ∃ tl, trace session inputs = state session :: tl.
Proof. destruct inputs; simpl; eauto. Qed.

Lemma count_edge_step (a b x y : ConversationState) (l : list ConversationState) :
  count_edge a b (x :: y :: l)
  = ((if decide (x = a ∧ y = b) then 1 else 0) + count_edge a b (y :: l))%nat.
Proof. reflexivity. Qed.

(** Once past a state, a run does not step out of it again. *)
Lemma count_edge_behind (a b : ConversationState) (inputs : list string) :
  ∀ session, (position a < position (state session))%nat →
             count_edge a b (trace session inputs) = 0%nat.
Proof.
  induction inputs as [|user_input rest IH]; intros session Hlt; [done|].
  cbn [trace].
  destruct (trace_head (get_reply session user_input).1 rest) as [tl Htl].
  pose proof (IH (get_reply session user_input).1) as IH'.
  rewrite Htl in *. rewrite count_edge_step, IH'.
  - case_decide as Hd; [|done]. destruct Hd as [<- _]. lia.
  - destruct (get_reply_position session user_input) as [->|?]; lia.
Qed.

Lemma count_edge_at_most_once (a b : ConversationState) (inputs : list string) :
  a ≠ b → ∀ session, (count_edge a b (trace session inputs) ≤ 1)%nat.
Proof.
  intros Hab. induction inputs as [|user_input rest IH]; intros session.
  - simpl. lia.
  - cbn [trace].
    destruct (trace_head (get_reply session user_input).1 rest) as [tl Htl].
    pose proof (IH (get_reply session user_input).1) as IH'.
    pose proof (count_edge_behind a b rest (get_reply session user_input).1) as Hz.
    rewrite Htl in *. rewrite count_edge_step.
    case_decide as Hd; [|lia].
    destruct Hd as [Ha Hb]. rewrite Hz; [lia|].
    destruct (get_reply_position session user_input) as [E|?]; [|by rewrite <- Ha].
    congruence.
Qed.

(** C3. A step of [get_reply] never moves backward in the progression
    GREETING, INTEREST_CHECK, EXPERIENCE_CHECK, FRESHER_QUALIFICATION or
    EXP_DETAILS, CUSTOMER_STORY, FESTIVAL_STORY, COMPLETED, whatever the
    session (so in particular for every reachable one) and the input; a
    step that changes the state without advancing in the progression is
    one of the edges between a narrative question and its retry state;
    and along any run each of these edges is taken at most once. *)
Theorem get_reply_monotone (session : SessionData) (user_input : string)
    (inputs : list string) :
  let st := state session in
  let st' := state (get_reply session user_input).1 in
  (stage st ≤ stage st')%nat
  ∧ (stage st' = stage st → st' = st ∨ (st, st') ∈ retry_edges)
  ∧ (∀ a b, (a, b) ∈ retry_edges →
            (count_edge a b (trace session inputs) ≤ 1)%nat).
Proof.
  split; [|split].
  - destruct (state session) eqn:E; by_cases_of_get_reply;
      rewrite ?E; simpl; rewrite ?E; simpl; lia.
  - destruct (state session) eqn:E; by_cases_of_get_reply;
      rewrite ?E; simpl; rewrite ?E; simpl; intros ?;
      first [by left | right; unfold retry_edges; rewrite !elem_of_cons; tauto | done].
  - intros a b Hab. apply count_edge_at_most_once.
    unfold retry_edges in Hab. rewrite !elem_of_cons, elem_of_nil in Hab.
    destruct Hab as [?|[?|[?|[?|[]]]]]; by simplify_eq.
Qed.

Lemma get_reply_monotone_witness :
  (stage (state in_customer_retry)
   ≤ stage (state (get_reply in_customer_retry "Still short.").1))%nat
  ∧ (CUSTOMER_STORY, CUSTOMER_RETRY) ∈ retry_edges
  ∧ (count_edge CUSTOMER_STORY CUSTOMER_RETRY
       (trace (new_session None) whole_call) ≤ 1)%nat.
Proof.
  split; [|split].
  - apply (get_reply_monotone in_customer_retry "Still short." []).
  - unfold retry_edges. rewrite !elem_of_cons. tauto.
  - apply (get_reply_monotone (new_session None) "" whole_call).
    unfold retry_edges. rewrite !elem_of_cons. tauto.
Defined.

(** The states of a whole call, by evaluation. *)
Example trace_whole_call :
  trace (new_session None) whole_call
  = [GREETING; INTEREST_CHECK; EXPERIENCE_CHECK; EXP_DETAILS; CUSTOMER_STORY;
     CUSTOMER_RETRY; FESTIVAL_STORY; COMPLETED; COMPLETED]
  ∧ count_edge CUSTOMER_STORY CUSTOMER_RETRY (trace (new_session None) whole_call)
    = 1%nat.
Proof. vm_compute. done. Qed.

(** C4. For a session that is neither COMPLETED nor REJECTED and any input,
    the empty one included, [get_reply] returns: a session with its next
    state, and a prompt that is not empty. *)
Theorem get_reply_total (session : SessionData) (user_input : string) :
  is_terminal (state session) = false →
  ∃ session' reply,
    get_reply session user_input = (session', reply)
    ∧ reply ≠ ""
    ∧ (0 < String.length reply)%nat.
Proof.
  intros _. exists (get_reply session user_input).1, (get_reply session user_input).2.
  split; [by destruct (get_reply session user_input)|].
  pose proof (get_reply_nonempty session user_input) as H.
  split; [done|]. destruct (get_reply session user_input).2; [done | simpl; lia].
Qed.

Lemma get_reply_total_witness :
  is_terminal (state (new_session None)) = false
  ∧ ∃ session' reply,
      get_reply (new_session None) "" = (session', reply)
      ∧ reply ≠ ""
      ∧ (0 < String.length reply)%nat.
Proof.
  split; [reflexivity|]. apply (get_reply_total (new_session None) ""). reflexivity.
Defined.

(** C5. In COMPLETED and in REJECTED, [get_reply] answers every input with
    the same closing line and returns the session as it was: no field
    changes. *)
Theorem get_reply_terminal (session : SessionData) (user_input : string) :
  is_terminal (state session) = true →
  get_reply session user_input
  = (session, "Thank you for your time. Have a great day!").
Proof.
  intros H. unfold get_reply. by destruct (state session).
Qed.

Lemma get_reply_terminal_witness :
  is_terminal (state (set_state REJECTED in_customer_retry)) = true
  ∧ get_reply (set_state REJECTED in_customer_retry) "Hello? Anyone there?"
    = (set_state REJECTED in_customer_retry, closing_line).
Proof.
  split; [reflexivity|].
  apply (get_reply_terminal (set_state REJECTED in_customer_retry)). reflexivity.
Defined.

(** C9. In CUSTOMER_RETRY an input that fails the quality gate leads to
    REJECTED with the rejection line, whatever [retry_count] is; the
    counter is neither read nor changed. *)
Theorem customer_retry_fail_rejects (session : SessionData) (user_input : string) :
  state session = CUSTOMER_RETRY →
  check_story_quality user_input = false →
  get_reply session user_input = (set_state REJECTED session, rejection_line).
Proof.
  intros Hst Hq. unfold get_reply. rewrite Hst. cbv zeta. by rewrite Hq.
Qed.

Lemma customer_retry_fail_rejects_witness :
  state (set_retry_count (-3) in_customer_retry) = CUSTOMER_RETRY
  ∧ check_story_quality "Still short." = false
  ∧ get_reply (set_retry_count (-3) in_customer_retry) "Still short."
    = (set_state REJECTED (set_retry_count (-3) in_customer_retry), rejection_line).
Proof.
  split; [vm_compute; reflexivity|]. split; [vm_compute; reflexivity|].
  apply (customer_retry_fail_rejects (set_retry_count (-3) in_customer_retry));
    vm_compute; reflexivity.
Defined.

(** C10. At INTEREST_CHECK the negative words are looked for first, as
    substrings of the lower-cased, trimmed input: when one of them occurs
    anywhere in it, also inside another word and also next to an
    affirmative word, [get_reply] returns the decline line and the session
    stays as it is, in INTEREST_CHECK. *)
Theorem interest_check_negative_first (session : SessionData)
    (user_input word pre post : string) :
  state session = INTEREST_CHECK →
  word ∈ ["no"; "not"; "nah"; "nope"] →
  Str.strip (Str.lower user_input) = pre +:+ word +:+ post →
  get_reply session user_input = (session, decline_line).
Proof.
  intros Hst Hw Hsub. unfold get_reply. rewrite Hst. cbv zeta.
  assert (any_in ["no"; "not"; "nah"; "nope"] (Str.strip (Str.lower user_input))
          = true) as ->; [|done].
  unfold any_in. apply existsb_exists. exists word. split.
  - by apply list_elem_of_In.
  - apply contains_app. by exists pre, post.
Qed.

Lemma interest_check_negative_first_witness :
  state (set_state INTEREST_CHECK (new_session None)) = INTEREST_CHECK
  ∧ "not" ∈ ["no"; "not"; "nah"; "nope"]
  ∧ Str.strip (Str.lower "  Yes, NOT a problem ") = "yes, " +:+ "not" +:+ " a problem"
  ∧ any_in ["yes"; "yeah"; "sure"; "interested"; "ok"]
           (Str.strip (Str.lower "  Yes, NOT a problem ")) = true
  ∧ get_reply (set_state INTEREST_CHECK (new_session None)) "  Yes, NOT a problem "
    = (set_state INTEREST_CHECK (new_session None), decline_line).
Proof.
  split; [reflexivity|]. split; [rewrite !elem_of_cons; tauto|].
  split; [vm_compute; reflexivity|]. split; [vm_compute; reflexivity|].
  apply (interest_check_negative_first
           (set_state INTEREST_CHECK (new_session None))
           "  Yes, NOT a problem " "not" "yes, " " a problem").
  - reflexivity.
  - rewrite !elem_of_cons; tauto.
  - vm_compute; reflexivity.
Defined.

(** The two inputs the property names, by evaluation. *)
Example interest_check_yes_not_a_problem (session : SessionData) :
  state session = INTEREST_CHECK →
  get_reply session "yes, not a problem" = (session, decline_line).
Proof. intros H. unfold get_reply. by rewrite H. Qed.

Example interest_check_know (session : SessionData) :
  state session = INTEREST_CHECK →
  get_reply session "I know, yes" = (session, decline_line).
Proof. intros H. unfold get_reply. by rewrite H. Qed.

(** C1, as the code has it.  In a narrative state an input that passes
    the quality gate is recorded under the key of the question and the
    session moves to the next stage with the next prompt, [retry_count]
    staying as it was: nothing resets it.  So the two questions share
    one count: a failing first attempt adds one to it and gets the
    corrective prompt only while the new count is below 2, and is
    rejected otherwise; a failing answer in a retry state is rejected. *)
Theorem narrative_pass_keeps_retry_count (session : SessionData)
    (user_input : string) :
  is_narrative (state session) = true →
  (check_story_quality user_input = true →
     get_reply session user_input
     = (set_state (next_stage (state session))
          (set_answer (answer_key (state session)) user_input session),
        pass_prompt (state session))
     ∧ retry_count (get_reply session user_input).1 = retry_count session)
  ∧ (check_story_quality user_input = false →
     is_first_attempt (state session) = true →
     get_reply session user_input
     = if 2 <=? retry_count session + 1
       then (set_state REJECTED
               (set_retry_count (retry_count session + 1) session),
             rejection_line)
       else (set_state (retry_state (state session))
               (set_retry_count (retry_count session + 1) session),
             retry_prompt (state session)))
  ∧ (check_story_quality user_input = false →
     is_first_attempt (state session) = false →
     get_reply session user_input = (set_state REJECTED session, rejection_line)).
Proof.
  intros Hn. unfold get_reply. cbv zeta.
  destruct (state session) eqn:E; try discriminate Hn;
    (split; [|split]); intros Hq; rewrite Hq; simpl; try done;
    intros _; by destruct (2 <=? retry_count session + 1).
Qed.

Lemma narrative_pass_keeps_retry_count_witness :
  is_narrative (state in_customer_retry) = true
  ∧ check_story_quality eight_sentences = true
  ∧ retry_count in_customer_retry = 1
  ∧ retry_count (get_reply in_customer_retry eight_sentences).1
    = retry_count in_customer_retry
  ∧ is_narrative (state after_customer_retry) = true
  ∧ check_story_quality "It was fun." = false
  ∧ is_first_attempt (state after_customer_retry) = true
  ∧ get_reply after_customer_retry "It was fun."
    = (set_state REJECTED (set_retry_count 2 after_customer_retry), rejection_line).
Proof.
  split; [vm_compute; reflexivity|]. split; [vm_compute; reflexivity|].
  split; [vm_compute; reflexivity|]. split.
  - apply (narrative_pass_keeps_retry_count in_customer_retry eight_sentences);
      vm_compute; reflexivity.
  - split; [vm_compute; reflexivity|]. split; [vm_compute; reflexivity|].
    split; [vm_compute; reflexivity|].
    apply (narrative_pass_keeps_retry_count after_customer_retry "It was fun.");
      vm_compute; reflexivity.
Defined.

(** C1 as stated fails on a call that can happen: a short customer story,
    then a long enough one, which is accepted with the count still at 1;
    the first short festival story is then rejected at once, without the
    festival retry prompt. *)
Lemma pass_does_not_clear_retry_count :
  is_narrative (state in_customer_retry) = true
  ∧ check_story_quality eight_sentences = true
  ∧ retry_count (get_reply in_customer_retry eight_sentences).1 ≠ 0
  ∧ state after_customer_retry = FESTIVAL_STORY
  ∧ check_story_quality "It was fun." = false
  ∧ state (get_reply after_customer_retry "It was fun.").1 = REJECTED
  ∧ (get_reply after_customer_retry "It was fun.").2 = rejection_line.
Proof. vm_compute. repeat split; done. Qed.

End StateMachine.

(** ** The turn orchestrator *)

Section Turn.

Variable PUBLIC_URL : string.

Lemma is_blank_blank_transcript (user_input : option string) :
  is_blank user_input = true ↔ blank_transcript user_input.
Proof.
  destruct user_input as [text|]; simpl; [|done].
  rewrite strip_empty_all_space. destruct text; simpl; [done|].
  reflexivity.
Qed.

Lemma flow_reply_nonempty (session : SessionData) (user_input : option string) :
  (flow_reply session user_input).2 ≠ "".
Proof.
  unfold flow_reply. destruct (is_blank user_input).
  - cbv zeta. destruct (state session);
      repeat match goal with
             | |- context [if ?b then _ else _] => destruct b
             end; done.
  - apply get_reply_nonempty.
Qed.

Lemma generate_tts_failed (io : synthesis_io) (text session_id : string) :
  synthesis_failed io → generate_tts PUBLIC_URL io text session_id = None.
Proof.
  unfold synthesis_failed, generate_tts.
  destruct (post io) as [|status_code saved]; [done|].
  intros [Hne| ->].
  - by destruct (Z.eqb_spec status_code 200).
  - by destruct (status_code =? 200).
Qed.

(** The request of a known session, block after block. *)
Lemma twilio_webhook_known (sessions : gmap string SessionData)
    (sid : string) (session : SessionData) (RecordingUrl : option string)
    (t : transcript_outcome) (io : synthesis_io) :
  sid ≠ "" → sessions !! sid = Some session →
  let flow := flow_reply session (turn_input RecordingUrl t) in
  let synth := synthesize PUBLIC_URL io flow.1 flow.2 sid in
  twilio_webhook PUBLIC_URL sessions (Some sid) RecordingUrl t io
  = (<[sid:=synth.1]> sessions,
     [ match synth.2 with
       | Some url =>
           if Str.is_empty url
           then VSay flow.2 (Some "Polly.Joanna") (Some "en-US")
           else VPlay url
       | None => VSay flow.2 (Some "Polly.Joanna") (Some "en-US")
       end;
       continuation PUBLIC_URL synth.1 sid ]).
Proof.
  intros Hsid Hs. unfold twilio_webhook. rewrite Hs.
  destruct sid; [done|]. simpl Str.is_empty. cbv iota.
  destruct (flow_reply session (turn_input RecordingUrl t)) as [s1 reply].
  simpl. by destruct (synthesize PUBLIC_URL io s1 reply _).
Qed.

(** C6. On a transcript that is missing, empty or whitespace-only the
    orchestrator does its own counting in CUSTOMER_STORY and
    FESTIVAL_STORY: [retry_count] goes up by one, and the session moves to
    the retry state of the question while the new count is below 2, to
    REJECTED with the rejection line otherwise.  In every other state it
    answers with the "didn't catch that" prompt and the session is the one
    it was: [get_reply] is not called and no field changes. *)
Theorem blank_transcript_turn (session : SessionData)
    (user_input : option string) :
  blank_transcript user_input →
  (is_first_attempt (state session) = true →
     flow_reply session user_input
     = if 2 <=? retry_count session + 1
       then (set_state REJECTED
               (set_retry_count (retry_count session + 1) session),
             rejection_line)
       else (set_state (retry_state (state session))
               (set_retry_count (retry_count session + 1) session),
             "Sorry, you need to speak on this topic. Please try now."))
  ∧ (is_first_attempt (state session) = false →
       flow_reply session user_input
       = (session, "I didn't catch that. Could you please speak up?")).
Proof.
  intros Hb%is_blank_blank_transcript. unfold flow_reply. rewrite Hb. cbv zeta.
  split; intros Hf; destruct (state session) eqn:E; try discriminate Hf;
    try done; simpl; rewrite ?E;
    by destruct (2 <=? retry_count session + 1).
Qed.

Lemma blank_transcript_turn_witness :
  blank_transcript (Some "   ")
  ∧ is_first_attempt (state (set_state CUSTOMER_STORY (new_session None))) = true
  ∧ flow_reply (set_state CUSTOMER_STORY (new_session None)) (Some "   ")
    = (set_state CUSTOMER_RETRY
         (set_retry_count 1 (set_state CUSTOMER_STORY (new_session None))),
       empty_retry_prompt)
  ∧ is_first_attempt (state (new_session None)) = false
  ∧ flow_reply (new_session None) (Some "   ")
    = (new_session None, didnt_catch_prompt).
Proof.
  split; [vm_compute; reflexivity|]. split; [vm_compute; reflexivity|]. split.
  - apply (blank_transcript_turn (set_state CUSTOMER_STORY (new_session None))
             (Some "   ")); vm_compute; reflexivity.
  - split; [vm_compute; reflexivity|].
    apply (blank_transcript_turn (new_session None) (Some "   "));
      vm_compute; reflexivity.
Defined.

(** The whole request on such a transcript outside the two story states:
    the registry keeps the session with nothing but [current_audio_url]
    rewritten by the synthesis block, and the response speaks or plays the
    "didn't catch that" prompt. *)
Lemma blank_transcript_request (sessions : gmap string SessionData)
    (sid : string) (session : SessionData) (RecordingUrl : option string)
    (t : transcript_outcome) (io : synthesis_io) :
  Str.is_empty sid = false →
  sessions !! sid = Some session →
  blank_transcript (turn_input RecordingUrl t) →
  is_first_attempt (state session) = false →
  let audio_url := generate_tts PUBLIC_URL io didnt_catch_prompt sid in
  twilio_webhook PUBLIC_URL sessions (Some sid) RecordingUrl t io
  = (<[sid:=set_current_audio_url audio_url session]> sessions,
     [ match audio_url with
       | Some url =>
           if Str.is_empty url
           then VSay didnt_catch_prompt (Some "Polly.Joanna") (Some "en-US")
           else VPlay url
       | None => VSay didnt_catch_prompt (Some "Polly.Joanna") (Some "en-US")
       end;
       continuation PUBLIC_URL session sid ]).
Proof.
  intros Hsid Hs Hb%is_blank_blank_transcript Hf audio_url.
  rewrite (twilio_webhook_known sessions sid session RecordingUrl t io)
    by (by destruct sid).
  unfold flow_reply. rewrite Hb.
  by destruct (state session).
Qed.

(** C7. A request for a known session ends its response with the
    directive to record the next utterance, addressed to this webhook with
    the same session id, exactly when the state of the session after the
    turn is neither COMPLETED nor REJECTED; it ends with the hang-up
    directive exactly when that state is one of the two. *)
Theorem webhook_continuation (sessions : gmap string SessionData)
    (sid : string) (session : SessionData) (RecordingUrl : option string)
    (t : transcript_outcome) (io : synthesis_io) :
  Str.is_empty sid = false →
  sessions !! sid = Some session →
  let result := twilio_webhook PUBLIC_URL sessions (Some sid) RecordingUrl t io in
  ∃ session',
    result.1 !! sid = Some session'
    ∧ (last result.2
       = Some (VRecord (webhook_url PUBLIC_URL sid) 60 true "trim-silence" 5)
       ↔ is_terminal (state session') = false)
    ∧ (last result.2 = Some VHangup ↔ is_terminal (state session') = true).
Proof.
  intros Hsid Hs result. subst result.
  rewrite (twilio_webhook_known sessions sid session RecordingUrl t io)
    by (by destruct sid).
  eexists. split; [apply lookup_insert_eq|].
  cbn [fst snd last]. unfold continuation, webhook_url.
  destruct (is_terminal (state _)); simpl; split; split; done.
Qed.

(** C8. When speech synthesis fails (the request raised, the status was
    not 200, or the audio could not be saved) the turn of a known session
    still answers: its response speaks the very prompt of the turn with
    the provider's own voice and then continues or hangs up as usual. *)
Theorem synthesis_failure_falls_back (sessions : gmap string SessionData)
    (sid : string) (session : SessionData) (RecordingUrl : option string)
    (t : transcript_outcome) (io : synthesis_io) :
  Str.is_empty sid = false →
  sessions !! sid = Some session →
  synthesis_failed io →
  let flow := flow_reply session (turn_input RecordingUrl t) in
  generate_tts PUBLIC_URL io flow.2 sid = None
  ∧ flow.2 ≠ ""
  ∧ twilio_webhook PUBLIC_URL sessions (Some sid) RecordingUrl t io
    = (<[sid:=set_current_audio_url None flow.1]> sessions,
       [ VSay flow.2 (Some "Polly.Joanna") (Some "en-US");
         continuation PUBLIC_URL flow.1 sid ]).
Proof.
  intros Hsid Hs Hfail flow.
  pose proof (flow_reply_nonempty session (turn_input RecordingUrl t)) as Hne.
  pose proof (generate_tts_failed io flow.2 sid Hfail) as Htts.
  split; [done|]. split; [done|].
  rewrite (twilio_webhook_known sessions sid session RecordingUrl t io)
    by (by destruct sid).
  fold flow. unfold synthesize. rewrite Htts.
  destruct (flow.2) eqn:E; [done|]. reflexivity.
Qed.

End Turn.

Lemma webhook_continuation_witness :
  Str.is_empty sample_sid = false
  ∧ sample_sessions in_customer_retry !! sample_sid = Some in_customer_retry
  ∧ ∃ session',
      (twilio_webhook "https://riya.example" (sample_sessions in_customer_retry)
         (Some sample_sid) (Some "https://api.twilio.example/rec/1")
         (TranscriptText (Some "Too short.")) provider_up).1 !! sample_sid
      = Some session'
      ∧ (last (twilio_webhook "https://riya.example"
                 (sample_sessions in_customer_retry)
                 (Some sample_sid) (Some "https://api.twilio.example/rec/1")
                 (TranscriptText (Some "Too short.")) provider_up).2
         = Some (VRecord (webhook_url "https://riya.example" sample_sid)
                   60 true "trim-silence" 5)
         ↔ is_terminal (state session') = false)
      ∧ (last (twilio_webhook "https://riya.example"
                 (sample_sessions in_customer_retry)
                 (Some sample_sid) (Some "https://api.twilio.example/rec/1")
                 (TranscriptText (Some "Too short.")) provider_up).2
         = Some VHangup
         ↔ is_terminal (state session') = true).
Proof.
  split; [vm_compute; reflexivity|]. split; [vm_compute; reflexivity|].
  apply (webhook_continuation "https://riya.example"
           (sample_sessions in_customer_retry) sample_sid in_customer_retry
           (Some "https://api.twilio.example/rec/1")
           (TranscriptText (Some "Too short.")) provider_up);
    vm_compute; reflexivity.
Defined.

Lemma synthesis_failure_falls_back_witness :
  Str.is_empty sample_sid = false
  ∧ sample_sessions (new_session None) !! sample_sid = Some (new_session None)
  ∧ synthesis_failed provider_down
  ∧ (twilio_webhook "https://riya.example" (sample_sessions (new_session None))
       (Some sample_sid) (Some "https://api.twilio.example/rec/1")
       (TranscriptText (Some "Hello")) provider_down).2
    = [ VSay "Hi, this is Riya from Futuresoft Consultancy. We are hiring voice and chat profiles for companies like British Telecom, Teleperformance, and Wipro. Are you interested?"
          (Some "Polly.Joanna") (Some "en-US");
        VRecord (webhook_url "https://riya.example" sample_sid)
          60 true "trim-silence" 5 ].
Proof.
  split; [vm_compute; reflexivity|]. split; [vm_compute; reflexivity|].
  split; [left; lia|].
  rewrite (proj2 (proj2 (synthesis_failure_falls_back "https://riya.example"
             (sample_sessions (new_session None)) sample_sid (new_session None)
             (Some "https://api.twilio.example/rec/1")
             (TranscriptText (Some "Hello")) provider_down
             ltac:(vm_compute; reflexivity) ltac:(vm_compute; reflexivity)
             ltac:(left; lia)))).
  vm_compute; reflexivity.
Defined.


(** * Further properties *)

(** ** More about the quality gate *)

Section GateBounds.
Import GateSpec.

Lemma kept_all_space (p : string) : kept p ↔ Str.all_space p = false.
Proof. unfold kept. by rewrite strip_empty_all_space. Qed.

Lemma kept_length (p : string) : kept p → (1 ≤ String.length p)%nat.
Proof. destruct p; [done | simpl; lia]. Qed.

Lemma split_each_nonempty (s : string) : split_each s ≠ [].
Proof.
  destruct s as [|c r]; [done|]. simpl.
  destruct (Str.is_terminator c); [done|]. by destruct (split_each r).
Qed.

Lemma split_each_lengths (s : string) :
  (sum_list (String.length <$> split_each s) + length (split_each s)
   = String.length s + 1)%nat.
Proof.
  induction s as [|c r IH]; [done|]. simpl.
  destruct (Str.is_terminator c); csimpl; [lia|].
  pose proof (split_each_nonempty r) as Hne.
  destruct (split_each r) as [|p ps]; [done|]. csimpl in *. lia.
Qed.

Lemma filter_kept_bound (l : list string) :
  (2 * length (filter kept l) ≤ sum_list (String.length <$> l) + length l)%nat.
Proof.
  induction l as [|p ps IH]; [done|].
  rewrite filter_cons. destruct (decide (kept p)) as [Hk|_]; csimpl.
  - apply kept_length in Hk. lia.
  - lia.
Qed.

Lemma sentence_count_bound (text : string) :
  (2 * sentence_count text ≤ String.length text + 1)%nat.
Proof.
  unfold sentence_count. rewrite <- split_each_lengths. apply filter_kept_bound.
Qed.

Lemma word_starts_bound (s : string) :
  (2 * word_starts true s ≤ String.length s + 1)%nat
  ∧ (2 * word_starts false s ≤ String.length s)%nat.
Proof.
  induction s as [|c r [IH1 IH2]]; simpl; [lia|].
  destruct (Str.isspace c); lia.
Qed.

(** X14. A text of fewer than 15 characters never passes the quality
    gate: eight sentences need eight characters and seven terminators,
    fifty words need more. *)
Theorem short_text_fails (text : string) :
  (String.length text < 15)%nat → check_story_quality text = false.
Proof.
  intros Hlen. rewrite check_story_quality_isSufficient. unfold isSufficient.
  pose proof (sentence_count_bound text).
  pose proof (proj1 (word_starts_bound text)). unfold word_count.
  apply orb_false_iff. split; apply Nat.leb_gt; lia.
Qed.

Lemma space_not_terminator (c : ascii) :
  Str.isspace c = true → Str.is_terminator c = false.
Proof. by destruct c as [[] [] [] [] [] [] [] []]. Qed.

Lemma all_space_split_each (s : string) :
  Str.all_space s = true → split_each s = [s].
Proof.
  induction s as [|c r IH]; [done|]. simpl.
  intros [Hc Hr]%andb_true_iff. by rewrite (space_not_terminator c Hc), (IH Hr).
Qed.

Lemma all_space_word_starts (s : string) (b : bool) :
  Str.all_space s = true → word_starts b s = 0%nat.
Proof.
  revert b. induction s as [|c r IH]; intros b; [done|]. simpl.
  intros [-> Hr]%andb_true_iff. by apply IH.
Qed.

Lemma all_space_fails (text : string) :
  Str.all_space text = true → check_story_quality text = false.
Proof.
  intros H. rewrite check_story_quality_isSufficient.
  unfold isSufficient, sentence_count, word_count.
  rewrite (all_space_split_each text H), (all_space_word_starts text true H).
  rewrite filter_cons. destruct (decide (kept text)) as [Hk|_]; [|done].
  apply kept_all_space in Hk. congruence.
Qed.

Lemma all_space_app (a b : string) :
  Str.all_space (a +:+ b) = Str.all_space a && Str.all_space b.
Proof.
  induction a as [|c r IH]; [done|]. rewrite app_cons. simpl.
  by rewrite IH, andb_assoc.
Qed.

Lemma word_starts_app (a b : string) (after_space : bool) :
  (word_starts after_space a ≤ word_starts after_space (a +:+ b))%nat.
Proof.
  revert after_space. induction a as [|c r IH]; intros after_space.
  - simpl. lia.
  - rewrite app_cons. simpl. destruct (Str.isspace c).
    + apply IH.
    + specialize (IH false). lia.
Qed.

Lemma filter_kept_heads (p p' : string) (ps ps' : list string) :
  (Str.all_space p' = true → Str.all_space p = true) →
  (length (filter kept ps) ≤ length (filter kept ps'))%nat →
  (length (filter kept (p :: ps)) ≤ length (filter kept (p' :: ps')))%nat.
Proof.
  intros Hh Ht. rewrite !filter_cons.
  destruct (decide (kept p)) as [Hk|Hk], (decide (kept p')) as [Hk'|Hk'];
    simpl; try lia.
  apply kept_all_space in Hk. rewrite kept_all_space in Hk'.
  destruct (Str.all_space p') eqn:E; [|done]. rewrite Hh in Hk; done.
Qed.

Lemma split_each_app (a b : string) :
  ∃ p ps p' ps',
    split_each a = p :: ps ∧ split_each (a +:+ b) = p' :: ps'
    ∧ (Str.all_space p' = true → Str.all_space p = true)
    ∧ (length (filter kept ps) ≤ length (filter kept ps'))%nat.
Proof.
  induction a as [|c r (p & ps & p' & ps' & Hr & Hrb & Hh & Ht)].
  - pose proof (split_each_nonempty b) as Hne.
    destruct (split_each b) as [|p' ps'] eqn:E; [done|].
    exists "", [], p', ps'. split_and!; try done. simpl. lia.
  - rewrite app_cons. simpl. rewrite Hr, Hrb.
    destruct (Str.is_terminator c); simpl.
    + exists "", (p :: ps), "", (p' :: ps'). split_and!; try done.
      by apply filter_kept_heads.
    + exists (String c p), ps, (String c p'), ps'. split_and!; try done.
      simpl. intros [-> Hp]%andb_true_iff. simpl. by apply Hh.
Qed.

Lemma sentence_count_app (a b : string) :
  (sentence_count a ≤ sentence_count (a +:+ b))%nat.
Proof.
  unfold sentence_count.
  destruct (split_each_app a b) as (p & ps & p' & ps' & -> & -> & Hh & Ht).
  by apply filter_kept_heads.
Qed.

(** X15. A text that passes the quality gate still passes after anything
    is appended to it: neither count can go down. *)
Theorem check_story_quality_extend (a b : string) :
  check_story_quality a = true → check_story_quality (a +:+ b) = true.
Proof.
  rewrite !check_story_quality_isSufficient. unfold isSufficient, word_count.
  rewrite !orb_true_iff, !Nat.leb_le.
  pose proof (sentence_count_app a b). pose proof (word_starts_app a b true).
  lia.
Qed.

End GateBounds.

(** ** Sessions stay consistent *)

Section Consistency.

(** The session [get_reply] leaves behind, the prompts aside. *)
Lemma get_reply_session (s : SessionData) (user_input : string) :
  (get_reply s user_input).1
  = let user_lower := Str.strip (Str.lower user_input) in
    let failed := set_retry_count (retry_count s + 1) s in
    match state s with
    | GREETING => set_state INTEREST_CHECK s
    | INTEREST_CHECK =>
        if any_in ["no"; "not"; "nah"; "nope"] user_lower then s
        else if any_in ["yes"; "yeah"; "sure"; "interested"; "ok"] user_lower
             then set_state EXPERIENCE_CHECK s
             else s
    | EXPERIENCE_CHECK =>
        if any_in ["fresher"; "fresh"; "student"] user_lower
        then set_state FRESHER_QUALIFICATION (set_candidate_type "fresher" s)
        else if any_in ["experience"; "experienced"; "worked"] user_lower
             then set_state EXP_DETAILS (set_candidate_type "experienced" s)
             else s
    | FRESHER_QUALIFICATION =>
        set_state CUSTOMER_STORY (set_answer "qualification" user_input s)
    | EXP_DETAILS =>
        set_state CUSTOMER_STORY (set_answer "experience" user_input s)
    | CUSTOMER_STORY =>
        if check_story_quality user_input
        then set_state FESTIVAL_STORY (set_answer "customer_story" user_input s)
        else if 2 <=? retry_count s + 1
             then set_state REJECTED failed
             else set_state CUSTOMER_RETRY failed
    | CUSTOMER_RETRY =>
        if check_story_quality user_input
        then set_state FESTIVAL_STORY (set_answer "customer_story" user_input s)
        else set_state REJECTED s
    | FESTIVAL_STORY =>
        if check_story_quality user_input
        then set_state COMPLETED (set_answer "festival" user_input s)
        else if 2 <=? retry_count s + 1
             then set_state REJECTED failed
             else set_state FESTIVAL_RETRY failed
    | FESTIVAL_RETRY =>
        if check_story_quality user_input
        then set_state COMPLETED (set_answer "festival" user_input s)
        else set_state REJECTED s
    | REJECTED | COMPLETED => s
    end.
Proof.
  unfold get_reply. cbv zeta.
  destruct (state s); try reflexivity.
  - destruct (any_in _ _); [reflexivity|]. by destruct (any_in _ _).
  - destruct (any_in _ _); [reflexivity|]. by destruct (any_in _ _).
  - destruct (check_story_quality _); [reflexivity|].
    by destruct (2 <=? _).
  - by destruct (check_story_quality _).
  - destruct (check_story_quality _); [reflexivity|].
    by destruct (2 <=? _).
  - by destruct (check_story_quality _).
Qed.


Lemma flow_reply_session (s : SessionData) (user_input : option string) :
  (flow_reply s user_input).1
  = if is_blank user_input then
      if is_first_attempt (state s) then
        if 2 <=? retry_count s + 1
        then set_state REJECTED (set_retry_count (retry_count s + 1) s)
        else set_state (retry_state (state s))
               (set_retry_count (retry_count s + 1) s)
      else s
    else (get_reply s (default "" user_input)).1.
Proof.
  unfold flow_reply. destruct (is_blank user_input); [|reflexivity].
  cbv zeta. destruct (state s) eqn:E; try reflexivity;
    simpl; rewrite E; by destruct (2 <=? _).
Qed.

Lemma consistent_new_session (phone : option string) :
  consistent (new_session phone).
Proof. by unfold consistent. Qed.

Lemma consistent_set_current_audio_url (u : option string) (s : SessionData) :
  consistent s → consistent (set_current_audio_url u s).
Proof. done. Qed.

Lemma profile_with_customer_story (ct : option string)
    (m : gmap string string) (v : string) :
  profile_of ct m → check_story_quality v = true →
  with_customer_story ct (<["customer_story":=v]> m).
Proof. intros Hp Hv. by exists m, v. Qed.

Lemma customer_with_both_stories (ct : option string)
    (m : gmap string string) (w : string) :
  with_customer_story ct m → check_story_quality w = true →
  with_both_stories ct (<["festival":=w]> m).
Proof. intros (p & v & Hp & Hv & ->) Hw. by exists p, v, w. Qed.

Lemma consistent_get_reply (s : SessionData) (user_input : string) :
  consistent s → consistent (get_reply s user_input).1.
Proof.
  rewrite get_reply_session. cbv zeta. unfold consistent.
  destruct (state s) eqn:E.
  - intros H. exact H.
  - intros H. destruct (any_in _ _); [by rewrite E|].
    destruct (any_in _ _); [exact H | by rewrite E].
  - intros H. destruct (any_in _ _); [|destruct (any_in _ _)];
      [simpl; tauto | simpl; tauto | by rewrite E].
  - intros (Hct & Ha & Hr). simpl. rewrite Hct, Ha, insert_empty.
    split; [|done]. exists user_input. by left.
  - intros (Hct & Ha & Hr). simpl. rewrite Hct, Ha, insert_empty.
    split; [|done]. exists user_input. by right.
  - intros (Hp & Hr). destruct (check_story_quality user_input) eqn:Hq; simpl.
    + split; [by apply profile_with_customer_story | by left].
    + rewrite Hr. simpl. by split.
  - intros (Hp & Hr). destruct (check_story_quality user_input) eqn:Hq; simpl.
    + split; [by apply profile_with_customer_story | by right].
    + left. by split.
  - intros (Hc & Hr). destruct (check_story_quality user_input) eqn:Hq; simpl.
    + split; [by apply customer_with_both_stories | done].
    + destruct Hr as [Hr|Hr]; rewrite Hr; simpl.
      * by split.
      * right. split; [done | by right].
  - intros (Hc & Hr). destruct (check_story_quality user_input) eqn:Hq; simpl.
    + split; [by apply customer_with_both_stories | by right].
    + right. split; [done | by left].
  - intros H. by rewrite E.
  - intros H. by rewrite E.
Qed.

Lemma consistent_flow_reply (s : SessionData) (user_input : option string) :
  consistent s → consistent (flow_reply s user_input).1.
Proof.
  rewrite flow_reply_session.
  destruct (is_blank user_input); [|apply consistent_get_reply].
  unfold consistent. destruct (state s) eqn:E; simpl; try (by rewrite E).
  - intros (Hp & Hr). rewrite Hr. simpl. by split.
  - intros (Hc & [Hr|Hr]); rewrite Hr; simpl.
    + by split.
    + right. split; [done | by right].
Qed.


End Consistency.

Section Registry.

Variable PUBLIC_URL : string.

(** The registry a webhook request leaves behind. *)
Lemma twilio_webhook_sessions (sessions : gmap string SessionData)
    (session_id RecordingUrl : option string)
    (t : transcript_outcome) (io : synthesis_io) :
  (twilio_webhook PUBLIC_URL sessions session_id RecordingUrl t io).1
  = match session_id with
    | None => sessions
    | Some sid =>
        if Str.is_empty sid then sessions
        else match sessions !! sid with
             | None => sessions
             | Some session =>
                 let flow := flow_reply session (turn_input RecordingUrl t) in
                 <[sid:=(synthesize PUBLIC_URL io flow.1 flow.2 sid).1]> sessions
             end
    end.
Proof.
  unfold twilio_webhook. destruct session_id as [sid|]; [|reflexivity].
  destruct (Str.is_empty sid); [reflexivity|].
  destruct (sessions !! sid) as [session|]; [|reflexivity].
  destruct (flow_reply session (turn_input RecordingUrl t)) as [s1 reply].
  cbv zeta. simpl. by destruct (synthesize PUBLIC_URL io s1 reply sid).
Qed.

Lemma synthesize_session (io : synthesis_io) (session : SessionData)
    (reply sid : string) :
  ∃ u, (synthesize PUBLIC_URL io session reply sid).1 = session
       ∨ (synthesize PUBLIC_URL io session reply sid).1
         = set_current_audio_url u session.
Proof.
  unfold synthesize. destruct (Str.is_empty reply); simpl.
  - exists None. by left.
  - eexists. by right.
Qed.

Lemma consistent_synthesize (io : synthesis_io) (session : SessionData)
    (reply sid : string) :
  consistent session →
  consistent (synthesize PUBLIC_URL io session reply sid).1.
Proof.
  intros H. destruct (synthesize_session io session reply sid) as [u [-> | ->]]; done.
Qed.

Lemma initiate_call_sessions (twilio_configured : bool)
    (sessions : gmap string SessionData) (phone_number session_id : string)
    (io : synthesis_io) (call : call_outcome) :
  (initiate_call PUBLIC_URL twilio_configured sessions phone_number session_id
     io call).1
  = if twilio_configured then
      <[session_id:=
          set_current_audio_url
            (generate_tts PUBLIC_URL io
               (get_reply (new_session (Some phone_number)) "").2 session_id)
            (set_state INTEREST_CHECK (new_session (Some phone_number)))]>
        sessions
    else sessions.
Proof.
  unfold initiate_call. destruct twilio_configured; [|reflexivity].
  simpl. by destruct call.
Qed.

Lemma serve_consistent (sessions : gmap string SessionData) (req : request) :
  map_Forall (λ _ s, consistent s) sessions →
  map_Forall (λ _ s, consistent s) (serve PUBLIC_URL sessions req).
Proof.
  intros Hall. destruct req as [cfg phone sid io call | session_id rec t io | sid st];
    unfold serve.
  - rewrite initiate_call_sessions. destruct cfg; [|done].
    apply map_Forall_insert_2; [|done]. by unfold consistent.
  - rewrite twilio_webhook_sessions.
    destruct session_id as [sid|]; [|done].
    destruct (Str.is_empty sid); [done|].
    destruct (sessions !! sid) as [session|] eqn:Hs; [|done].
    apply map_Forall_insert_2; [|done].
    apply consistent_synthesize, consistent_flow_reply.
    by apply (Hall sid).
  - done.
Qed.

Lemma foldl_serve_consistent (reqs : list request) :
  ∀ sessions, map_Forall (λ _ s, consistent s) sessions →
              map_Forall (λ _ s, consistent s) (foldl (serve PUBLIC_URL) sessions reqs).
Proof.
  induction reqs as [|req reqs IH]; intros sessions Hall; [done|].
  simpl. by apply IH, serve_consistent.
Qed.

Lemma registered_consistent (reqs : list request) (sid : string)
    (s : SessionData) :
  serve_all PUBLIC_URL reqs !! sid = Some s → consistent s.
Proof.
  intros Hs.
  apply (foldl_serve_consistent reqs ∅ (map_Forall_empty _) sid s Hs).
Qed.

(** X1. Whatever requests the process has served since it started
    (call initiations, webhook requests, status callbacks, with whatever
    the outside world answered), every session of the registry is
    consistent: candidate type, stored answers and retry count are the ones
    that go with its state, and every stored story passed the quality
    gate. *)
Theorem serve_all_consistent (reqs : list request) :
  map_Forall (λ _ s, consistent s) (serve_all PUBLIC_URL reqs).
Proof. apply foldl_serve_consistent, map_Forall_empty. Qed.


Lemma profile_lookup_story (ct : option string) (m : gmap string string) :
  profile_of ct m →
  m !! "customer_story" = None ∧ m !! "festival" = None.
Proof. intros (q & [[_ ->] | [_ ->]]); by rewrite !lookup_singleton_ne. Qed.

Lemma customer_lookup_festival (ct : option string) (m : gmap string string) :
  with_customer_story ct m → m !! "festival" = None.
Proof.
  intros (p & v & Hp & _ & ->). rewrite lookup_insert_ne by done.
  by apply (profile_lookup_story ct).
Qed.

Lemma get_reply_answers_kept (s : SessionData) (user_input : string) :
  consistent s → answers s ⊆ answers (get_reply s user_input).1.
Proof.
  rewrite get_reply_session. cbv zeta. unfold consistent.
  destruct (state s) eqn:E; intros H;
    repeat match goal with
           | |- context [if ?b then _ else _] => destruct b
           end; simpl; try reflexivity.
  - destruct H as (_ & -> & _). apply map_empty_subseteq.
  - destruct H as (_ & -> & _). apply map_empty_subseteq.
  - apply insert_subseteq. by apply (profile_lookup_story (candidate_type s)), H.
  - apply insert_subseteq. by apply (profile_lookup_story (candidate_type s)), H.
  - apply insert_subseteq. by apply (customer_lookup_festival (candidate_type s)), H.
  - apply insert_subseteq. by apply (customer_lookup_festival (candidate_type s)), H.
Qed.

Lemma flow_reply_answers_kept (s : SessionData) (user_input : option string) :
  consistent s → answers s ⊆ answers (flow_reply s user_input).1.
Proof.
  rewrite flow_reply_session.
  destruct (is_blank user_input); [|apply get_reply_answers_kept].
  intros _. by repeat match goal with
           | |- context [if ?b then _ else _] => destruct b
           end.
Qed.

Lemma synthesize_answers (io : synthesis_io) (session : SessionData)
    (reply sid : string) :
  answers (synthesize PUBLIC_URL io session reply sid).1 = answers session.
Proof. unfold synthesize. by destruct (Str.is_empty reply). Qed.

(** X4. A webhook request never removes or overwrites an answer that a
    registered session already holds: the answers before the request are
    among the answers after it. *)
Theorem webhook_keeps_answers (reqs : list request) (sid : string)
    (s s' : SessionData) (session_id RecordingUrl : option string)
    (t : transcript_outcome) (io : synthesis_io) :
  serve_all PUBLIC_URL reqs !! sid = Some s →
  (twilio_webhook PUBLIC_URL (serve_all PUBLIC_URL reqs) session_id
     RecordingUrl t io).1 !! sid = Some s' →
  answers s ⊆ answers s'.
Proof.
  intros Hs. pose proof (registered_consistent reqs sid s Hs) as Hc.
  rewrite twilio_webhook_sessions.
  destruct session_id as [sid'|]; [|by intros; simplify_eq].
  destruct (Str.is_empty sid'); [by intros; simplify_eq|].
  destruct (serve_all PUBLIC_URL reqs !! sid') as [session|] eqn:Hs';
    [|by intros; simplify_eq].
  cbv zeta. destruct (decide (sid' = sid)) as [->|Hne].
  - rewrite lookup_insert_eq. intros [= <-]. rewrite synthesize_answers.
    simplify_eq. by apply flow_reply_answers_kept.
  - rewrite lookup_insert_ne by done. by intros; simplify_eq.
Qed.

(** X2. In every registered session the retry count is 0, 1 or 2; it is 2
    only in REJECTED, and it is 0 up to and including CUSTOMER_STORY. *)
Theorem registry_retry_count_bounds (reqs : list request) (sid : string)
    (s : SessionData) :
  serve_all PUBLIC_URL reqs !! sid = Some s →
  0 ≤ retry_count s ≤ 2
  ∧ (retry_count s = 2 → state s = REJECTED)
  ∧ ((position (state s) ≤ 4)%nat → retry_count s = 0).
Proof.
  intros Hc%registered_consistent. unfold consistent in Hc.
  destruct (state s); simpl; split_and!; try lia; try done.
  all: try (intros; lia).
Qed.

(** X3. A registered session in CUSTOMER_STORY always gets its retry: a
    failing answer leads to CUSTOMER_RETRY with the count at 1 and the
    corrective prompt, and so does a missing transcript; the rejection
    guard of that state never fires. *)
Theorem customer_story_first_failure (reqs : list request) (sid : string)
    (s : SessionData) (user_input : string) :
  serve_all PUBLIC_URL reqs !! sid = Some s →
  state s = CUSTOMER_STORY →
  check_story_quality user_input = false →
  get_reply s user_input
  = (set_state CUSTOMER_RETRY (set_retry_count 1 s), customer_retry_prompt)
  ∧ (flow_reply s None).1 = set_state CUSTOMER_RETRY (set_retry_count 1 s).
Proof.
  intros Hc%registered_consistent Hst Hq. unfold consistent in Hc.
  rewrite Hst in Hc. destruct Hc as [_ Hr]. split.
  - unfold get_reply. rewrite Hst. cbv zeta. rewrite Hq. simpl. by rewrite Hr.
  - rewrite flow_reply_session. simpl. by rewrite Hst, Hr.
Qed.

(** X5. A registered session in COMPLETED holds the answer of the
    qualification turn under the key of its candidate type (and not under
    the other one), a customer story and a festival story, and both
    stories pass the quality gate. *)
Theorem completed_session_answers (reqs : list request) (sid : string)
    (s : SessionData) :
  serve_all PUBLIC_URL reqs !! sid = Some s →
  state s = COMPLETED →
  ∃ q v w,
    ((candidate_type s = Some "fresher" ∧ answers s !! "qualification" = Some q
      ∧ answers s !! "experience" = None)
     ∨ (candidate_type s = Some "experienced"
        ∧ answers s !! "experience" = Some q
        ∧ answers s !! "qualification" = None))
    ∧ answers s !! "customer_story" = Some v ∧ check_story_quality v = true
    ∧ answers s !! "festival" = Some w ∧ check_story_quality w = true.
Proof.
  intros Hc%registered_consistent Hst. unfold consistent in Hc.
  rewrite Hst in Hc. destruct Hc as [(p & v & w & (q & Hp) & Hv & Hw & ->) _].
  exists q, v, w. split_and!; try done.
  - destruct Hp as [[Hct ->] | [Hct ->]]; [left | right];
      by rewrite !lookup_insert_ne, ?lookup_singleton_eq, ?lookup_singleton_ne.
  - rewrite lookup_insert_ne by done. apply lookup_insert_eq.
  - apply lookup_insert_eq.
Qed.


Lemma get_reply_phone_conversation (s : SessionData) (user_input : string) :
  phone_number (get_reply s user_input).1 = phone_number s
  ∧ conversation (get_reply s user_input).1 = conversation s.
Proof.
  rewrite get_reply_session. cbv zeta.
  by destruct (state s);
    repeat match goal with
           | |- context [if ?b then _ else _] => destruct b
           end.
Qed.

(** X6. [get_reply] never touches the phone number, the conversation list
    or the cached audio URL; the retry count never goes down and goes up
    by at most one, and only in a narrative state; the candidate type
    changes in EXPERIENCE_CHECK only. *)
Theorem get_reply_frame (s : SessionData) (user_input : string) :
  let s' := (get_reply s user_input).1 in
  phone_number s' = phone_number s
  ∧ conversation s' = conversation s
  ∧ current_audio_url s' = current_audio_url s
  ∧ retry_count s ≤ retry_count s' ≤ retry_count s + 1
  ∧ (state s ≠ EXPERIENCE_CHECK → candidate_type s' = candidate_type s)
  ∧ (is_narrative (state s) = false → retry_count s' = retry_count s).
Proof.
  cbv zeta. rewrite get_reply_session. cbv zeta.
  destruct (state s) eqn:E;
    repeat match goal with
           | |- context [if ?b then _ else _] => destruct b
           end; simpl; split_and!; try done; lia.
Qed.

Lemma flow_reply_frame (s : SessionData) (user_input : option string) :
  phone_number (flow_reply s user_input).1 = phone_number s
  ∧ conversation (flow_reply s user_input).1 = conversation s.
Proof.
  rewrite flow_reply_session. destruct (is_blank user_input).
  - by repeat match goal with
              | |- context [if ?b then _ else _] => destruct b
              end.
  - apply get_reply_phone_conversation.
Qed.

Lemma synthesize_frame (io : synthesis_io) (session : SessionData)
    (reply sid : string) :
  phone_number (synthesize PUBLIC_URL io session reply sid).1 = phone_number session
  ∧ conversation (synthesize PUBLIC_URL io session reply sid).1 = conversation session.
Proof. unfold synthesize. by destruct (Str.is_empty reply). Qed.

(** X7. A webhook request neither adds nor removes sessions, leaves every
    session other than the one it names as it is, and changes no
    session's phone number or conversation list. *)
Theorem twilio_webhook_registry_frame (sessions : gmap string SessionData)
    (session_id RecordingUrl : option string)
    (t : transcript_outcome) (io : synthesis_io) :
  let sessions' :=
    (twilio_webhook PUBLIC_URL sessions session_id RecordingUrl t io).1 in
  dom sessions' = dom sessions
  ∧ (∀ k, session_id ≠ Some k → sessions' !! k = sessions !! k)
  ∧ (∀ k s s', sessions !! k = Some s → sessions' !! k = Some s' →
               phone_number s' = phone_number s
               ∧ conversation s' = conversation s).
Proof.
  cbv zeta. rewrite twilio_webhook_sessions.
  destruct session_id as [sid|]; [|by split_and!; intros; simplify_eq].
  destruct (Str.is_empty sid); [by split_and!; intros; simplify_eq|].
  destruct (sessions !! sid) as [session|] eqn:Hs;
    [|by split_and!; intros; simplify_eq].
  cbv zeta. split_and!.
  - by apply dom_insert_lookup_L.
  - intros k Hk. apply lookup_insert_ne. congruence.
  - intros k s s' Hk. destruct (decide (sid = k)) as [->|Hne].
    + rewrite Hk in Hs. injection Hs as <-.
      rewrite lookup_insert_eq. intros [= <-].
      destruct (synthesize_frame io
                  (flow_reply s (turn_input RecordingUrl t)).1
                  (flow_reply s (turn_input RecordingUrl t)).2 k) as [-> ->].
      apply flow_reply_frame.
    + rewrite lookup_insert_ne by done. by intros; simplify_eq.
Qed.

(** X8. A webhook request without a session id, with an empty one, or
    with one the registry does not know is answered with the single
    "session has expired" sentence (no recording, no hang-up), and the
    registry is left as it is. *)
Theorem twilio_webhook_unknown_session (sessions : gmap string SessionData)
    (session_id RecordingUrl : option string)
    (t : transcript_outcome) (io : synthesis_io) :
  (∀ sid, session_id = Some sid → Str.is_empty sid = false →
          sessions !! sid = None) →
  twilio_webhook PUBLIC_URL sessions session_id RecordingUrl t io
  = (sessions,
     [VSay "Sorry, this session has expired. Please call again." None None]).
Proof.
  intros H. unfold twilio_webhook. destruct session_id as [sid|]; [|done].
  destruct (Str.is_empty sid) eqn:Hsid; [done|].
  by rewrite (H sid eq_refl Hsid).
Qed.

Lemma audio_url_nonempty (a b : string) :
  Str.is_empty (a +:+ "/audio/" +:+ b) = false.
Proof. by destruct a. Qed.

(** X9. When the synthesis provider answers 200 and the audio is saved,
    the response plays the file at PUBLIC_URL/audio/<session id>_<8 hex
    digits>.wav, that address is cached in [current_audio_url], and the
    usual continuation follows. *)
Theorem synthesis_success_plays (sessions : gmap string SessionData)
    (sid : string) (session : SessionData) (RecordingUrl : option string)
    (t : transcript_outcome) (io : synthesis_io) :
  Str.is_empty sid = false →
  sessions !! sid = Some session →
  post io = PostResponse 200 true →
  let flow := flow_reply session (turn_input RecordingUrl t) in
  let url :=
    PUBLIC_URL +:+ "/audio/" +:+ sid +:+ "_" +:+ uuid_hex8 io +:+ ".wav" in
  twilio_webhook PUBLIC_URL sessions (Some sid) RecordingUrl t io
  = (<[sid:=set_current_audio_url (Some url) flow.1]> sessions,
     [VPlay url; continuation PUBLIC_URL flow.1 sid]).
Proof.
  intros Hsid Hs Hpost flow url.
  rewrite (twilio_webhook_known PUBLIC_URL sessions sid session RecordingUrl t io)
    by (by destruct sid).
  fold flow. unfold synthesize.
  pose proof (flow_reply_nonempty session (turn_input RecordingUrl t)) as Hne.
  fold flow in Hne. destruct (flow.2) eqn:E; [done|].
  unfold generate_tts. rewrite Hpost. simpl.
  fold url. unfold url at 2. by rewrite audio_url_nonempty.
Qed.


Lemma flow_reply_blank (s : SessionData) (u u' : option string) :
  blank_transcript u → blank_transcript u' →
  flow_reply s u = flow_reply s u'.
Proof.
  intros Hu%is_blank_blank_transcript Hu'%is_blank_blank_transcript.
  unfold flow_reply. by rewrite Hu, Hu'.
Qed.

(** X10. All blank turns are alike: a request without recording, one
    whose download or transcription raised or reported an error, and one
    transcribed as nothing or as whitespace produce the same response and
    the same registry. *)
Theorem blank_turns_alike (sessions : gmap string SessionData)
    (session_id RecordingUrl RecordingUrl' : option string)
    (t t' : transcript_outcome) (io : synthesis_io) :
  blank_transcript (turn_input RecordingUrl t) →
  blank_transcript (turn_input RecordingUrl' t') →
  twilio_webhook PUBLIC_URL sessions session_id RecordingUrl t io
  = twilio_webhook PUBLIC_URL sessions session_id RecordingUrl' t' io.
Proof.
  intros Hb Hb'. unfold twilio_webhook.
  destruct session_id as [sid|]; [|done].
  destruct (Str.is_empty sid); [done|].
  destruct (sessions !! sid) as [session|]; [|done].
  by rewrite (flow_reply_blank session _ _ Hb Hb').
Qed.

(** X11. With the telephony client configured, [initiate_call] registers
    under the fresh id a session in INTEREST_CHECK with the phone number,
    no answers and a zero retry count, other sessions untouched, and it
    does so whether the call was placed or the placement raised; without
    the client it answers with the HTTP 500 error and registers nothing. *)
Theorem initiate_call_registers (twilio_configured : bool)
    (sessions : gmap string SessionData) (to session_id : string)
    (io : synthesis_io) (call : call_outcome) :
  let result := initiate_call PUBLIC_URL twilio_configured sessions
                  to session_id io call in
  if twilio_configured then
    (∃ s, result.1 !! session_id = Some s
          ∧ state s = INTEREST_CHECK
          ∧ phone_number s = Some to
          ∧ retry_count s = 0 ∧ answers s = ∅ ∧ candidate_type s = None
          ∧ current_audio_url s
            = generate_tts PUBLIC_URL io
                (get_reply (new_session (Some to)) "").2 session_id)
    ∧ (∀ k, k ≠ session_id → result.1 !! k = sessions !! k)
    ∧ match call with
      | CallCreated call_sid =>
          result.2 = InitiateOk call_sid session_id
                       ("Calling " +:+ to +:+ "...")
      | CallRaised error => result.2 = InitiateFailed error
      end
  else result = (sessions, HTTPError 500 "Twilio not configured").
Proof.
  cbv zeta. destruct twilio_configured; [|reflexivity].
  rewrite initiate_call_sessions. split_and!.
  - eexists. split; [apply lookup_insert_eq|]. by split_and!.
  - intros k Hk. by apply lookup_insert_ne.
  - unfold initiate_call. simpl. by destruct call.
Qed.

(** X12. The first webhook request of an initiated call carries no
    recording, and the session is already in INTEREST_CHECK: the response
    speaks (or plays) the "didn't catch that" prompt, not the opening
    pitch, asks to record, and the state stays INTEREST_CHECK. *)
Theorem first_webhook_after_initiate (sessions : gmap string SessionData)
    (to sid : string) (io io' : synthesis_io) (call : call_outcome)
    (t : transcript_outcome) :
  Str.is_empty sid = false →
  let sessions1 :=
    (initiate_call PUBLIC_URL true sessions to sid io call).1 in
  let result := twilio_webhook PUBLIC_URL sessions1 (Some sid) None t io' in
  let audio_url := generate_tts PUBLIC_URL io' didnt_catch_prompt sid in
  result.2
  = [ match audio_url with
      | Some url => VPlay url
      | None => VSay didnt_catch_prompt (Some "Polly.Joanna") (Some "en-US")
      end;
      VRecord (webhook_url PUBLIC_URL sid) 60 true "trim-silence" 5 ]
  ∧ ∃ s, result.1 !! sid = Some s ∧ state s = INTEREST_CHECK.
Proof.
  intros Hsid sessions1 result audio_url. subst result sessions1.
  rewrite initiate_call_sessions.
  erewrite (twilio_webhook_known PUBLIC_URL _ sid _ None t io');
    [|by destruct sid|apply lookup_insert_eq].
  cbn [fst snd]. split.
  - unfold flow_reply, turn_input. simpl. fold audio_url.
    unfold audio_url, generate_tts.
    destruct (post io') as [|code saved]; [done|].
    destruct (code =? 200); [|done]. destruct saved; [|done].
    by rewrite audio_url_nonempty.
  - eexists. split; [apply lookup_insert_eq|]. reflexivity.
Qed.

(** X13. A webhook request for a session in COMPLETED or REJECTED changes
    nothing of it but the cached audio URL, and its response is one spoken
    or played prompt (the closing line, or "didn't catch that" on a blank
    transcript) followed by the hang-up. *)
Theorem terminal_session_webhook (sessions : gmap string SessionData)
    (sid : string) (s : SessionData) (RecordingUrl : option string)
    (t : transcript_outcome) (io : synthesis_io) :
  Str.is_empty sid = false →
  sessions !! sid = Some s →
  is_terminal (state s) = true →
  let result := twilio_webhook PUBLIC_URL sessions (Some sid) RecordingUrl t io in
  let reply := if is_blank (turn_input RecordingUrl t)
               then didnt_catch_prompt else closing_line in
  (∃ u, result.1 = <[sid:=set_current_audio_url u s]> sessions)
  ∧ ∃ speak, result.2 = [speak; VHangup]
             ∧ (speak = VSay reply (Some "Polly.Joanna") (Some "en-US")
                ∨ ∃ url, speak = VPlay url).
Proof.
  intros Hsid Hs Hterm result reply. subst result.
  rewrite (twilio_webhook_known PUBLIC_URL sessions sid s RecordingUrl t io)
    by (by destruct sid).
  assert (flow_reply s (turn_input RecordingUrl t) = (s, reply)) as ->.
  { unfold flow_reply, reply. destruct (is_blank _).
    - by destruct (state s).
    - unfold get_reply. by destruct (state s). }
  cbn [fst snd]. unfold synthesize.
  assert (Str.is_empty reply = false) as ->.
  { unfold reply. by destruct (is_blank _). }
  cbn [fst snd]. split; [by eexists|].
  unfold continuation. simpl. rewrite Hterm. simpl.
  eexists. split; [reflexivity|].
  destruct (generate_tts _ _ _ _) as [url|]; [|by left].
  destruct (Str.is_empty url); [by left | right; by eexists].
Qed.

End Registry.

(** ** Keywords, progress and the two failure paths *)

Section Keywords.

Lemma app_assoc_string (a b c : string) : (a +:+ b) +:+ c = a +:+ b +:+ c.
Proof. induction a as [|x a IH]; [done|]. by rewrite !app_cons, IH. Qed.

(** A word that occurs in a word that occurs in the input occurs in it. *)
Lemma contains_trans (a b u : string) :
  Str.contains a b = true → Str.contains b u = true → Str.contains a u = true.
Proof.
  rewrite !contains_app. intros (p1 & q1 & ->) (p2 & q2 & ->).
  exists (p2 +:+ p1), (q1 +:+ q2). by rewrite !app_assoc_string.
Qed.

Lemma contains_absorb (a b u : string) :
  Str.contains a b = true →
  Str.contains a u || Str.contains b u = Str.contains a u.
Proof.
  intros Hab. destruct (Str.contains b u) eqn:Hb.
  - by rewrite (contains_trans a b u Hab Hb).
  - apply orb_false_r.
Qed.

Lemma any_in_negative (u : string) :
  any_in ["no"; "not"; "nah"; "nope"] u
  = Str.contains "no" u || Str.contains "nah" u.
Proof.
  unfold any_in. cbn [existsb]. rewrite orb_false_r.
  rewrite (orb_comm (Str.contains "nah" u)), orb_assoc, orb_assoc.
  rewrite (contains_absorb "no" "not" u) by done.
  rewrite (contains_absorb "no" "nope" u) by done.
  reflexivity.
Qed.

Lemma any_in_fresher (u : string) :
  any_in ["fresher"; "fresh"; "student"] u
  = Str.contains "fresh" u || Str.contains "student" u.
Proof.
  unfold any_in. cbn [existsb]. rewrite orb_false_r, orb_assoc.
  rewrite (orb_comm (Str.contains "fresher" u)).
  by rewrite (contains_absorb "fresh" "fresher" u).
Qed.

Lemma any_in_experienced (u : string) :
  any_in ["experience"; "experienced"; "worked"] u
  = Str.contains "experience" u || Str.contains "worked" u.
Proof.
  unfold any_in. cbn [existsb]. rewrite orb_false_r, orb_assoc.
  by rewrite (contains_absorb "experience" "experienced" u).
Qed.

(** X17. Three of the keywords are shadowed by shorter ones: the negative
    test holds exactly when "no" or "nah" occurs, the fresher test when
    "fresh" or "student" occurs, the experienced test when "experience" or
    "worked" occurs. *)
Theorem keyword_lists_reduce (u : string) :
  any_in ["no"; "not"; "nah"; "nope"] u
  = Str.contains "no" u || Str.contains "nah" u
  ∧ any_in ["fresher"; "fresh"; "student"] u
    = Str.contains "fresh" u || Str.contains "student" u
  ∧ any_in ["experience"; "experienced"; "worked"] u
    = Str.contains "experience" u || Str.contains "worked" u.
Proof.
  split; [apply any_in_negative|].
  split; [apply any_in_fresher | apply any_in_experienced].
Qed.

(** X18. In EXPERIENCE_CHECK the fresher words are looked for first: an
    input in which "fresh" or "student" occurs, also inside another word
    and also next to "experienced", makes the candidate a fresher and
    moves to FRESHER_QUALIFICATION. *)
Theorem experience_check_fresher_first (s : SessionData)
    (user_input word pre post : string) :
  state s = EXPERIENCE_CHECK →
  word ∈ ["fresh"; "student"] →
  Str.strip (Str.lower user_input) = pre +:+ word +:+ post →
  get_reply s user_input
  = (set_state FRESHER_QUALIFICATION (set_candidate_type "fresher" s),
     "Now, what's your highest qualification like Graduate, Undergraduate, or Graduation drop-out?").
Proof.
  intros Hst Hw Hsub. unfold get_reply. rewrite Hst. cbv zeta.
  rewrite any_in_fresher.
  assert (Str.contains word (Str.strip (Str.lower user_input)) = true) as Hc.
  { apply contains_app. by exists pre, post. }
  rewrite !elem_of_cons, elem_of_nil in Hw.
  destruct Hw as [-> | [-> | []]]; rewrite Hc, ?orb_true_r; reflexivity.
Qed.

End Keywords.

Section Progress.

Lemma run_cons (s : SessionData) (user_input : string) (rest : list string) :
  (run s (user_input :: rest)).1 = (run (get_reply s user_input).1 rest).1.
Proof.
  simpl. destruct (get_reply s user_input) as [s' reply]. simpl.
  by destruct (run s' rest).
Qed.

Lemma position_terminal (st : ConversationState) :
  (position st ≤ 8)%nat ∧ (is_terminal st = true ↔ (8 ≤ position st)%nat).
Proof. destruct st; simpl; split; try lia; split; (done || lia). Qed.

(** From the qualification turn on every call of [get_reply] moves on. *)
Lemma get_reply_advances (s : SessionData) (user_input : string) :
  (3 ≤ position (state s))%nat →
  (Nat.min 8 (S (position (state s)))
   ≤ position (state (get_reply s user_input).1))%nat.
Proof.
  rewrite get_reply_session. cbv zeta.
  destruct (state s) eqn:E; simpl; try lia;
    repeat match goal with
           | |- context [if ?b then _ else _] => destruct b
           end; simpl; rewrite ?E; simpl; lia.
Qed.

(** X19. From the qualification turn on every call of [get_reply] moves
    the session on: a run that starts at position p >= 3 of the
    progression and has at least 8 - p inputs ends in COMPLETED or
    REJECTED, whatever the inputs (five inputs from the qualification
    turn, four from the customer story). *)
Theorem run_reaches_terminal (inputs : list string) (s : SessionData) :
  (3 ≤ position (state s))%nat →
  (8 ≤ position (state s) + length inputs)%nat →
  is_terminal (state (run s inputs).1) = true.
Proof.
  revert s. induction inputs as [|user_input rest IH]; intros s Hq Hlen.
  - simpl in *. apply position_terminal. lia.
  - rewrite run_cons. pose proof (get_reply_advances s user_input Hq).
    simpl in Hlen. apply IH; lia.
Qed.

End Progress.

Section BlankStory.

(** X16. A whitespace-only text fails the quality gate, and on a first
    attempt at a narrative question the orchestrator's own handling of it
    leaves the session exactly as [get_reply] would have. *)
Theorem blank_story_paths_agree (s : SessionData) (text : string) :
  Str.all_space text = true →
  check_story_quality text = false
  ∧ (is_first_attempt (state s) = true →
     (flow_reply s (Some text)).1 = (get_reply s text).1).
Proof.
  intros Hb. pose proof (all_space_fails text Hb) as Hq. split; [done|].
  intros Hf. rewrite flow_reply_session.
  assert (is_blank (Some text) = true) as ->.
  { by apply is_blank_blank_transcript. }
  rewrite get_reply_session. cbv zeta.
  destruct (state s) eqn:E; try discriminate Hf; simpl; by rewrite Hq.
Qed.

End BlankStory.

(** ** The properties above on the sample call *)

Lemma registry_retry_count_bounds_witness :
  serve_all sample_url requests_to_story !! sample_sid = Some story_session
  ∧ 0 ≤ retry_count story_session ≤ 2
  ∧ (retry_count story_session = 2 → state story_session = REJECTED)
  ∧ ((position (state story_session) ≤ 4)%nat → retry_count story_session = 0).
Proof.
  split; [vm_compute; reflexivity|].
  apply (registry_retry_count_bounds sample_url requests_to_story sample_sid).
  vm_compute; reflexivity.
Defined.

Lemma customer_story_first_failure_witness :
  serve_all sample_url requests_to_story !! sample_sid = Some story_session
  ∧ state story_session = CUSTOMER_STORY
  ∧ check_story_quality "It was fine." = false
  ∧ get_reply story_session "It was fine."
    = (set_state CUSTOMER_RETRY (set_retry_count 1 story_session),
       customer_retry_prompt)
  ∧ (flow_reply story_session None).1
    = set_state CUSTOMER_RETRY (set_retry_count 1 story_session).
Proof.
  split; [vm_compute; reflexivity|]. split; [vm_compute; reflexivity|].
  split; [vm_compute; reflexivity|].
  apply (customer_story_first_failure sample_url requests_to_story sample_sid);
    vm_compute; reflexivity.
Defined.

Lemma webhook_keeps_answers_witness :
  serve_all sample_url requests_to_completed !! sample_sid = Some completed_session
  ∧ (twilio_webhook sample_url (serve_all sample_url requests_to_completed)
       (Some sample_sid) (Some "https://api.twilio.example/rec/9")
       (TranscriptText (Some eight_sentences)) provider_down).1 !! sample_sid
    = Some (set_current_audio_url None completed_session)
  ∧ answers completed_session
    ⊆ answers (set_current_audio_url None completed_session).
Proof.
  split; [vm_compute; reflexivity|]. split; [vm_compute; reflexivity|].
  apply (webhook_keeps_answers sample_url requests_to_completed sample_sid
           completed_session (set_current_audio_url None completed_session)
           (Some sample_sid) (Some "https://api.twilio.example/rec/9")
           (TranscriptText (Some eight_sentences)) provider_down);
    vm_compute; reflexivity.
Defined.

Lemma completed_session_answers_witness :
  serve_all sample_url requests_to_completed !! sample_sid = Some completed_session
  ∧ state completed_session = COMPLETED
  ∧ ∃ q v w,
      ((candidate_type completed_session = Some "fresher"
        ∧ answers completed_session !! "qualification" = Some q
        ∧ answers completed_session !! "experience" = None)
       ∨ (candidate_type completed_session = Some "experienced"
          ∧ answers completed_session !! "experience" = Some q
          ∧ answers completed_session !! "qualification" = None))
      ∧ answers completed_session !! "customer_story" = Some v
      ∧ check_story_quality v = true
      ∧ answers completed_session !! "festival" = Some w
      ∧ check_story_quality w = true.
Proof.
  split; [vm_compute; reflexivity|]. split; [vm_compute; reflexivity|].
  apply (completed_session_answers sample_url requests_to_completed sample_sid);
    vm_compute; reflexivity.
Defined.

Lemma twilio_webhook_unknown_session_witness :
  (∀ sid, Some "no-such-call" = Some sid → Str.is_empty sid = false →
          serve_all sample_url requests_to_story !! sid = None)
  ∧ twilio_webhook sample_url (serve_all sample_url requests_to_story)
      (Some "no-such-call") None TranscriptRaised provider_up
    = (serve_all sample_url requests_to_story,
       [VSay "Sorry, this session has expired. Please call again." None None]).
Proof.
  assert (∀ sid, Some "no-such-call" = Some sid → Str.is_empty sid = false →
                 serve_all sample_url requests_to_story !! sid = None) as H.
  { intros sid [= <-] _. vm_compute; reflexivity. }
  split; [exact H|].
  apply (twilio_webhook_unknown_session sample_url
           (serve_all sample_url requests_to_story) (Some "no-such-call")
           None TranscriptRaised provider_up H).
Defined.

Lemma synthesis_success_plays_witness :
  Str.is_empty sample_sid = false
  ∧ sample_sessions story_session !! sample_sid = Some story_session
  ∧ post provider_up = PostResponse 200 true
  ∧ (twilio_webhook sample_url (sample_sessions story_session) (Some sample_sid)
       None TranscriptRaised provider_up).2
    = [ VPlay "https://riya.example/audio/3f2b8c1e-7a4d-4e0b-9c55-1d2e3f4a5b6c_0a1b2c3d.wav";
        VRecord (webhook_url sample_url sample_sid) 60 true "trim-silence" 5 ].
Proof.
  split; [vm_compute; reflexivity|]. split; [vm_compute; reflexivity|].
  split; [reflexivity|].
  rewrite (synthesis_success_plays sample_url (sample_sessions story_session)
             sample_sid story_session None TranscriptRaised provider_up
             ltac:(vm_compute; reflexivity) ltac:(vm_compute; reflexivity)
             ltac:(reflexivity)).
  vm_compute; reflexivity.
Defined.

Lemma blank_turns_alike_witness :
  blank_transcript
    (turn_input (Some "https://api.twilio.example/rec/1") TranscriptRaised)
  ∧ blank_transcript (turn_input None (TranscriptText (Some "never read")))
  ∧ twilio_webhook sample_url (serve_all sample_url requests_to_story)
      (Some sample_sid) (Some "https://api.twilio.example/rec/1")
      TranscriptRaised provider_up
    = twilio_webhook sample_url (serve_all sample_url requests_to_story)
        (Some sample_sid) None (TranscriptText (Some "never read")) provider_up.
Proof.
  split; [vm_compute; reflexivity|]. split; [vm_compute; reflexivity|].
  apply (blank_turns_alike sample_url (serve_all sample_url requests_to_story)
           (Some sample_sid) (Some "https://api.twilio.example/rec/1") None
           TranscriptRaised (TranscriptText (Some "never read")) provider_up);
    vm_compute; reflexivity.
Defined.

Lemma first_webhook_after_initiate_witness :
  Str.is_empty sample_sid = false
  ∧ (twilio_webhook sample_url
       (initiate_call sample_url true ∅ "+910000000000" sample_sid provider_up
          (CallCreated "CA01")).1
       (Some sample_sid) None TranscriptRaised provider_down).2
    = [ VSay didnt_catch_prompt (Some "Polly.Joanna") (Some "en-US");
        VRecord (webhook_url sample_url sample_sid) 60 true "trim-silence" 5 ].
Proof.
  split; [vm_compute; reflexivity|].
  apply (first_webhook_after_initiate sample_url ∅ "+910000000000" sample_sid
           provider_up provider_down (CallCreated "CA01") TranscriptRaised).
  vm_compute; reflexivity.
Defined.

Lemma terminal_session_webhook_witness :
  Str.is_empty sample_sid = false
  ∧ serve_all sample_url requests_to_completed !! sample_sid = Some completed_session
  ∧ is_terminal (state completed_session) = true
  ∧ ∃ speak,
      (twilio_webhook sample_url (serve_all sample_url requests_to_completed)
         (Some sample_sid) (Some "https://api.twilio.example/rec/9")
         (TranscriptText (Some "Hello again")) provider_down).2
      = [speak; VHangup]
      ∧ (speak = VSay closing_line (Some "Polly.Joanna") (Some "en-US")
         ∨ ∃ url, speak = VPlay url).
Proof.
  split; [vm_compute; reflexivity|]. split; [vm_compute; reflexivity|].
  split; [vm_compute; reflexivity|].
  apply (terminal_session_webhook sample_url
           (serve_all sample_url requests_to_completed) sample_sid
           completed_session (Some "https://api.twilio.example/rec/9")
           (TranscriptText (Some "Hello again")) provider_down);
    vm_compute; reflexivity.
Defined.

Lemma short_text_fails_witness :
  (String.length "a.b.c.d.e.f.g." < 15)%nat
  ∧ check_story_quality "a.b.c.d.e.f.g." = false.
Proof.
  split; [vm_compute; lia|].
  apply (short_text_fails "a.b.c.d.e.f.g."). vm_compute; lia.
Defined.

(** The bound is sharp: fifteen characters can pass. *)
Example fifteen_characters_pass :
  String.length fifteen_characters = 15%nat
  ∧ check_story_quality fifteen_characters = true.
Proof. vm_compute. done. Qed.

Lemma check_story_quality_extend_witness :
  check_story_quality eight_sentences = true
  ∧ check_story_quality (eight_sentences +:+ " and that was all") = true.
Proof.
  split; [vm_compute; reflexivity|].
  apply (check_story_quality_extend eight_sentences " and that was all").
  vm_compute; reflexivity.
Defined.

Lemma blank_story_paths_agree_witness :
  Str.all_space "   " = true
  ∧ check_story_quality "   " = false
  ∧ is_first_attempt (state story_session) = true
  ∧ (flow_reply story_session (Some "   ")).1 = (get_reply story_session "   ").1.
Proof.
  split; [vm_compute; reflexivity|]. split.
  - apply (blank_story_paths_agree story_session "   "). vm_compute; reflexivity.
  - split; [vm_compute; reflexivity|].
    apply (blank_story_paths_agree story_session "   "); vm_compute; reflexivity.
Defined.

Lemma experience_check_fresher_first_witness :
  state (set_state EXPERIENCE_CHECK (new_session None)) = EXPERIENCE_CHECK
  ∧ "fresh" ∈ ["fresh"; "student"]
  ∧ Str.strip (Str.lower "Not a Fresher, I am experienced")
    = "not a " +:+ "fresh" +:+ "er, i am experienced"
  ∧ any_in ["experience"; "experienced"; "worked"]
      (Str.strip (Str.lower "Not a Fresher, I am experienced")) = true
  ∧ candidate_type
      (get_reply (set_state EXPERIENCE_CHECK (new_session None))
         "Not a Fresher, I am experienced").1
    = Some "fresher".
Proof.
  split; [reflexivity|]. split; [rewrite !elem_of_cons; tauto|].
  split; [vm_compute; reflexivity|]. split; [vm_compute; reflexivity|].
  rewrite (experience_check_fresher_first
             (set_state EXPERIENCE_CHECK (new_session None))
             "Not a Fresher, I am experienced" "fresh" "not a "
             "er, i am experienced"
             ltac:(reflexivity) ltac:(rewrite !elem_of_cons; tauto)
             ltac:(vm_compute; reflexivity)).
  reflexivity.
Defined.

Lemma run_reaches_terminal_witness :
  (3 ≤ position (state story_session))%nat
  ∧ (8 ≤ position (state story_session)
         + length ["One."; "Two."; eight_sentences; ""])%nat
  ∧ is_terminal
      (state (run story_session ["One."; "Two."; eight_sentences; ""]).1) = true.
Proof.
  split; [vm_compute; lia|]. split; [vm_compute; lia|].
  apply (run_reaches_terminal ["One."; "Two."; eight_sentences; ""] story_session);
    vm_compute; lia.
Defined.
